(** * Correlation analysis: a shallow embedding of [algorithms/correlation.py]

    Definitions come first, following the Python module top-down:

    - [Py]  : the Python runtime pieces the module relies on (exceptions and
              [try]/[except], [date] and [datetime] values);
    - [Np]  : the numeric values held in a pandas column, the numpy
              statistics pandas delegates to, and [round];
    - [Pd]  : pandas [Series], the two-column frame built by [pd.concat],
              [pct_change], [dropna], [corr] and [cov];
    - [CorrelationCalculator] : the two static methods of the class,
              [fetch_stock_data] and [calculate];
    - [Fixtures], [More] : a small market for concrete runs, and a word
              about prices;
    - [View] : the API view of [correlation_analysis/views.py], the caller
              of [calculate];
    - [Manage] : [main] of [manage.py];
    - [Prod] : the cast of the allowed origins in the production settings.

    Then the proofs: [NpFacts], [PdFacts], [CalculatorFacts], [FixtureFacts],
    in [Claims] the statements of the specification, and further properties
    of the code in [CalculatorMore], [ViewFacts], [ManageFacts] and
    [ProdFacts].

    Numbers.  A column cell is a Python float.  It is modelled as an extended
    real: [NaN], the two infinities, or an exact real number.  The special
    values follow the IEEE-754 rules numpy applies (0/0 and inf-inf are NaN,
    x/0 is an infinity); rounding error, overflow and the sign of zero are
    not represented.  The statements below are kept to what does not rest
    on them: which cells are NaN, what the clip and the rounding bound,
    which rows and dates remain.

    Dates.  A timestamp of an index and a [datetime] live on one time line
    counted in microseconds; a calendar day is its ordinal
    ([date.toordinal()]). *)

From Stdlib Require Import ZArith List String Bool Lia Reals Lra Psatz Sorted.
Import ListNotations.

Open Scope Z_scope.

(* ================================================================== *)
(** * Python runtime *)
(* ================================================================== *)

Module Py.

(** Exception classes that can travel through the module.  Every class here
    derives from [Exception]; [Other] stands for whatever class the market
    data client raises. *)
Inductive exn_class :=
| ValueError
| OverflowError
| IndexError
| KeyError
| Other (name : string).

Record exn := Exn { exn_cls : exn_class; exn_msg : string }.

(** [str(e)] *)
Definition str (e : exn) : string := exn_msg e.

Inductive outcome (A : Type) :=
| Ok (a : A)
| Raise (e : exn).
Arguments Ok {A} a.
Arguments Raise {A} e.

(** [date] and [datetime] objects.  [ordinal] is [date.toordinal()]
    (0001-01-01 is day 1); [micro] is the time of day in microseconds. *)
Inductive pytime :=
| PyDate (ordinal : Z)
| PyDateTime (ordinal : Z) (micro : Z).

Definition us_per_day : Z := 86400000000.

Definition ordinal_of (t : pytime) : Z :=
  match t with
  | PyDate o => o
  | PyDateTime o _ => o
  end.

(** [isinstance(t, datetime)] *)
Definition is_datetime (t : pytime) : bool :=
  match t with
  | PyDate _ => false
  | PyDateTime _ _ => true
  end.

(** [t.date()] on a [datetime]: the time of day is discarded. *)
Definition date_of_datetime (t : pytime) : pytime := PyDate (ordinal_of t).

(** The point on the time line a value denotes, in microseconds; a [date]
    denotes its midnight. *)
Definition instant (t : pytime) : Z :=
  match t with
  | PyDate o => o * us_per_day
  | PyDateTime o u => o * us_per_day + u
  end.


(** [t - timedelta(days=n)].  Python raises [OverflowError] when the result
    would fall before [date.min] (ordinal 1). *)
Definition sub_days (t : pytime) (n : Z) : outcome pytime :=
  if ordinal_of t - n <? 1
  then Raise (Exn OverflowError "date value out of range")
  else Ok match t with
          | PyDate o => PyDate (o - n)
          | PyDateTime o u => PyDateTime (o - n) u
          end.

(** Computations that may raise and that act on a state [S] which survives
    a raise, as Python's do. *)
Definition M (S A : Type) : Type := S -> outcome A * S.

Definition ret {S A} (a : A) : M S A := fun s => (Ok a, s).

Definition raise {S A} (e : exn) : M S A := fun s => (Raise e, s).

Definition bind {S A B} (m : M S A) (k : A -> M S B) : M S B :=
  fun s =>
    match m s with
    | (Ok a, s') => k a s'
    | (Raise e, s') => (Raise e, s')
    end.

(** A pure step that may raise. *)
Definition lift {S A} (o : outcome A) : M S A := fun s => (o, s).

(** [try: body  except Exception as e: handler(e)] *)
Definition try_except {S A} (body : M S A) (handler : exn -> M S A) : M S A :=
  fun s =>
    match body s with
    | (Ok a, s') => (Ok a, s')
    | (Raise e, s') => handler e s'
    end.

End Py.

Declare Scope py_scope.
Delimit Scope py_scope with py.
Notation "x <- m ;; k" := (Py.bind m (fun x => k))
  (at level 61, m at next level, right associativity) : py_scope.

(* ================================================================== *)
(** * Column values and numpy statistics *)
(* ================================================================== *)

Module Np.

Open Scope R_scope.

Inductive pyfloat :=
| NaN
| PInf
| NInf
| Fin (r : R).

(** [pd.isna] on a scalar. *)
Definition isna (x : pyfloat) : bool :=
  match x with
  | NaN => true
  | _ => false
  end.

Definition notna (x : pyfloat) : bool := negb (isna x).

Definition fneg (x : pyfloat) : pyfloat :=
  match x with
  | NaN => NaN
  | PInf => NInf
  | NInf => PInf
  | Fin r => Fin (- r)
  end.

Definition fadd (x y : pyfloat) : pyfloat :=
  match x, y with
  | NaN, _ | _, NaN => NaN
  | PInf, NInf | NInf, PInf => NaN
  | PInf, _ | _, PInf => PInf
  | NInf, _ | _, NInf => NInf
  | Fin a, Fin b => Fin (a + b)
  end.

Definition fsub (x y : pyfloat) : pyfloat := fadd x (fneg y).

(** The infinity carrying the sign of [a * s] for a non-zero real [a];
    [s] is [true] for a positive infinity. *)
Definition signed_inf (a : R) (s : bool) : pyfloat :=
  if Rlt_dec 0 a then (if s then PInf else NInf)
  else (if s then NInf else PInf).

Definition fmul (x y : pyfloat) : pyfloat :=
  match x, y with
  | NaN, _ | _, NaN => NaN
  | PInf, PInf | NInf, NInf => PInf
  | PInf, NInf | NInf, PInf => NInf
  | PInf, Fin a | Fin a, PInf =>
      if Req_dec_T a 0 then NaN else signed_inf a true
  | NInf, Fin a | Fin a, NInf =>
      if Req_dec_T a 0 then NaN else signed_inf a false
  | Fin a, Fin b => Fin (a * b)
  end.

Definition fdiv (x y : pyfloat) : pyfloat :=
  match x, y with
  | NaN, _ | _, NaN => NaN
  | Fin a, Fin b =>
      if Req_dec_T b 0
      then (if Req_dec_T a 0 then NaN else signed_inf a true)
      else Fin (a / b)
  | Fin _, _ => Fin 0
  | PInf, Fin b => if Rlt_dec b 0 then NInf else PInf
  | NInf, Fin b => if Rlt_dec b 0 then PInf else NInf
  | _, _ => NaN
  end.

Definition fsqrt (x : pyfloat) : pyfloat :=
  match x with
  | NaN | NInf => NaN
  | PInf => PInf
  | Fin r => if Rlt_dec r 0 then NaN else Fin (sqrt r)
  end.

(** [np.sum] over a one-dimensional array. *)
Definition np_sum (xs : list pyfloat) : pyfloat :=
  fold_left fadd xs (Fin 0).

Definition of_nat (n : nat) : pyfloat := Fin (INR n).

(** [np.average(x)] without weights: the arithmetic mean. *)
Definition np_mean (xs : list pyfloat) : pyfloat :=
  fdiv (np_sum xs) (of_nat (List.length xs)).

(** [X -= avg[:, None]] for one row of [X]. *)
Definition demean (xs : list pyfloat) : list pyfloat :=
  map (fun x => fsub x (np_mean xs)) xs.

Fixpoint products (xs ys : list pyfloat) : list pyfloat :=
  match xs, ys with
  | x :: xs', y :: ys' => fmul x y :: products xs' ys'
  | _, _ => []
  end.

(** One entry of [dot(X, X.T)]. *)
Definition np_dot (xs ys : list pyfloat) : pyfloat :=
  np_sum (products xs ys).

(** One entry of [np.cov(a, b, ddof=1)]: the rows are centred, multiplied,
    and the products scaled by [1 / fact] with [fact = max(n - ddof, 0)]. *)
Definition cov_entry (xs ys : list pyfloat) : pyfloat :=
  fmul (np_dot (demean xs) (demean ys))
       (fdiv (Fin 1) (of_nat (List.length xs - 1))).

(** [np.cov(a, b, ddof=1)[0, 1]] *)
Definition np_cov (a b : list pyfloat) : pyfloat := cov_entry a b.

(** [np.clip(x, -1, 1)]: NaN stays, every other value is brought into
    [-1, 1]. *)
Definition clip_unit (x : pyfloat) : pyfloat :=
  match x with
  | NaN => NaN
  | PInf => Fin 1
  | NInf => Fin (-1)
  | Fin r => if Rlt_dec r (-1) then Fin (-1)
             else if Rlt_dec 1 r then Fin 1
             else Fin r
  end.

(** [np.corrcoef(a, b)[0, 1]]: the covariance matrix entry divided by both
    standard deviations, row first, then column, and the quotient clipped
    to [-1, 1]. *)
Definition np_corrcoef (a b : list pyfloat) : pyfloat :=
  let c01 := cov_entry a b in
  let sd0 := fsqrt (cov_entry a a) in
  let sd1 := fsqrt (cov_entry b b) in
  clip_unit (fdiv (fdiv c01 sd0) sd1).

(** Round half to even of a real number, as an integer. *)
Definition round_half_even (y : R) : Z :=
  let f := Int_part y in
  let d := y - IZR f in
  if Rlt_dec d (/ 2) then f
  else if Rlt_dec (/ 2) d then (f + 1)%Z
  else if Z.even f then f else (f + 1)%Z.

(** Python's [round(x, ndigits)] on a float, for [ndigits >= 0]: NaN and the
    infinities round to themselves, a finite value goes to the nearest
    multiple of [10^-ndigits], ties to even. *)
Definition pyround (x : pyfloat) (ndigits : Z) : pyfloat :=
  match x with
  | Fin r =>
      let p := IZR (10 ^ ndigits) in
      Fin (IZR (round_half_even (r * p)) / p)
  | _ => x
  end.

(** ** Exact counterparts, for statements about finite columns *)

Definition rsum (rs : list R) : R := fold_right Rplus 0 rs.

Definition rmean (rs : list R) : R := rsum rs / INR (List.length rs).

Definition rdemean (rs : list R) : list R := map (fun x => x - rmean rs) rs.

Fixpoint rproducts (xs ys : list R) : list R :=
  match xs, ys with
  | x :: xs', y :: ys' => x * y :: rproducts xs' ys'
  | _, _ => []
  end.

Definition rdot (xs ys : list R) : R := rsum (rproducts xs ys).

(** The sample covariance of two real columns. *)
Definition rcov (xs ys : list R) : R :=
  rdot (rdemean xs) (rdemean ys) * (1 / INR (List.length xs - 1)).

(** The value is an exact zero. *)
Definition is_zero (x : pyfloat) : Prop := exists r, x = Fin r /\ r = 0.

(** The value is zero or NaN. *)
Definition is_null (x : pyfloat) : Prop := x = NaN \/ is_zero x.

End Np.

(* ================================================================== *)
(** * pandas: series, the aligned frame, returns *)
(* ================================================================== *)

Module Pd.

Import Py Np.

(** An index label is a timestamp: microseconds on the same time line as
    [Py.instant]. *)
Definition timestamp := Z.

(** [ts.strftime("%Y-%m-%d")]: the calendar day of a timestamp.  The ISO
    text is determined by, and determines, the day; the model keeps the day
    (as an ordinal) in place of its rendering. *)
Definition strftime_Ymd (ts : timestamp) : Z := ts / us_per_day.

(** A [Series]: index labels with their values, in storage order. *)
Definition series := list (timestamp * pyfloat).

Definition index_of (s : series) : list timestamp := map fst s.
Definition values_of (s : series) : list pyfloat := map snd s.

(** The frame yfinance hands back: a shared index and named columns. *)
Record dataframe := DataFrame {
  df_index : list timestamp;
  df_columns : list (string * list pyfloat)
}.

(** [data.empty]: some axis has length zero. *)
Definition df_empty (d : dataframe) : bool :=
  match df_index d, df_columns d with
  | [], _ | _, [] => true
  | _, _ => false
  end.

(** [name in data.columns] *)
Definition has_column (name : string) (d : dataframe) : bool :=
  existsb (fun c => String.eqb (fst c) name) (df_columns d).

(** [data[name]] for a column that is present. *)
Definition getitem (d : dataframe) (name : string) : series :=
  match find (fun c => String.eqb (fst c) name) (df_columns d) with
  | Some c => combine (df_index d) (snd c)
  | None => []
  end.

(** A row of the two-column frame [pd.concat([s1, s2], axis=1)]. *)
Record row := Row { r_ts : timestamp; r_a : pyfloat; r_b : pyfloat }.

Definition frame := list row.

Definition frame_index (f : frame) : list timestamp := map r_ts f.

(** The two cells of row number [i] (from 0) of a frame; NaN past its
    end. *)
Definition cell_a (f : frame) (i : nat) : pyfloat :=
  match nth_error f i with
  | Some r => r_a r
  | None => NaN
  end.

Definition cell_b (f : frame) (i : nat) : pyfloat :=
  match nth_error f i with
  | Some r => r_b r
  | None => NaN
  end.

(** The two columns of a frame, as series over the frame's index. *)
Definition column_a (f : frame) : series := map (fun r => (r_ts r, r_a r)) f.
Definition column_b (f : frame) : series := map (fun r => (r_ts r, r_b r)) f.

(** [s.reindex(idx)] at one label: the value stored under the label, NaN
    when the label is absent. *)
Fixpoint lookup (ts : timestamp) (s : series) : pyfloat :=
  match s with
  | [] => NaN
  | (k, v) :: s' => if Z.eqb k ts then v else lookup ts s'
  end.

Definition index_eqb (i j : list timestamp) : bool :=
  if list_eq_dec Z.eq_dec i j then true else false.

Fixpoint mem (ts : timestamp) (l : list timestamp) : bool :=
  match l with
  | [] => false
  | k :: l' => Z.eqb k ts || mem ts l'
  end.

(** [not idx.is_unique] *)
Fixpoint has_duplicates (l : list timestamp) : bool :=
  match l with
  | [] => false
  | k :: l' => mem k l' || has_duplicates l'
  end.

(** Insertion into a sorted list; a label that is already there is
    repeated. *)
Fixpoint insert_sorted (ts : timestamp) (l : list timestamp) : list timestamp :=
  match l with
  | [] => [ts]
  | k :: l' =>
      if Z.leb ts k then ts :: l
      else k :: insert_sorted ts l'
  end.

(** [l] without its first occurrence of [ts]. *)
Fixpoint remove_one (ts : timestamp) (l : list timestamp) : list timestamp :=
  match l with
  | [] => []
  | k :: l' => if Z.eqb k ts then l' else k :: remove_one ts l'
  end.

(** The labels of [j] left over once each label of [i] has cancelled one
    equal label of [j]. *)
Definition unmatched (i j : list timestamp) : list timestamp :=
  fold_left (fun acc ts => remove_one ts acc) i j.

(** [i.union(j)] for two datetime indexes that differ: the labels of
    either in nondecreasing order, a repeated label as often as the index
    that repeats it most. *)
Definition union_index (i j : list timestamp) : list timestamp :=
  fold_right insert_sorted [] (i ++ unmatched i j).

Definition zip_rows (s1 s2 : series) : frame :=
  map (fun p => Row (fst (fst p)) (snd (fst p)) (snd (snd p))) (combine s1 s2).

(** The frame over [idx] with the two value columns [a] and [b]. *)
Definition rows_of (idx : list timestamp) (a b : list pyfloat) : frame :=
  map (fun p => Row (fst p) (fst (snd p)) (snd (snd p)))
      (combine idx (combine a b)).

Definition duplicate_labels_error : exn :=
  Exn ValueError "cannot reindex on an axis with duplicate labels".

(** The values of [s] laid out on [target], as [concat] does for each of its
    inputs: a series whose index already is [target] is taken as it stands;
    any other is reindexed, label by label, which pandas refuses when the
    series repeats a label. *)
Definition reindex (target : list timestamp) (s : series)
  : outcome (list pyfloat) :=
  if index_eqb (index_of s) target then Ok (values_of s)
  else if has_duplicates (index_of s) then Raise duplicate_labels_error
  else Ok (map (fun ts => lookup ts s) target).

(** [pd.concat([s1, s2], axis=1)] (outer join, the default).  Equal indexes
    are kept as they are.  Otherwise the frame runs over the union of the
    two indexes and each series is laid out on it, the first series
    first. *)
Definition concat (s1 s2 : series) : outcome frame :=
  if index_eqb (index_of s1) (index_of s2) then Ok (zip_rows s1 s2)
  else
    let target := union_index (index_of s1) (index_of s2) in
    match reindex target s1 with
    | Raise e => Raise e
    | Ok a =>
        match reindex target s2 with
        | Raise e => Raise e
        | Ok b => Ok (rows_of target a b)
        end
    end.

(** [ffill] down both columns: a NaN takes the last value above it that is
    not NaN; leading NaNs stay. *)
Fixpoint ffill_from (la lb : pyfloat) (f : frame) : frame :=
  match f with
  | [] => []
  | r :: f' =>
      let a := if isna (r_a r) then la else r_a r in
      let b := if isna (r_b r) then lb else r_b r in
      Row (r_ts r) a b :: ffill_from a b f'
  end.

Definition ffill (f : frame) : frame := ffill_from NaN NaN f.

(** One cell of [data / data.shift(1) - 1]. *)
Definition change (cur prev : pyfloat) : pyfloat :=
  fsub (fdiv cur prev) (Fin 1).

Fixpoint pct_from (pa pb : pyfloat) (f : frame) : frame :=
  match f with
  | [] => []
  | r :: f' =>
      Row (r_ts r) (change (r_a r) pa) (change (r_b r) pb)
      :: pct_from (r_a r) (r_b r) f'
  end.

(** [df.pct_change()]: per column, each value against the one in the row
    above; the row above the first is missing.  [pad] is the default
    [fill_method]: pandas before 3.0 forward-fills the frame first
    ([pad = true]), pandas 3.0 does not ([pad = false]). *)
Definition pct_change (pad : bool) (f : frame) : frame :=
  pct_from NaN NaN (if pad then ffill f else f).

Definition row_complete (r : row) : bool :=
  notna (r_a r) && notna (r_b r).

(** [df.dropna()]: keep the rows without a NaN. *)
Definition dropna (f : frame) : frame := filter row_complete f.

(** The rows [nancov]/[nancorr] keep: both values present. *)
Definition valid_pairs (a b : series) : list (pyfloat * pyfloat) :=
  filter (fun p => notna (fst p) && notna (snd p))
         (combine (values_of a) (values_of b)).

(** [a.cov(b)] for two series over the same index. *)
Definition series_cov (a b : series) : pyfloat :=
  let v := valid_pairs a b in
  match v with
  | [] => NaN
  | _ => np_cov (map fst v) (map snd v)
  end.

(** [a.corr(b)] (Pearson) for two series over the same index. *)
Definition series_corr (a b : series) : pyfloat :=
  let v := valid_pairs a b in
  match v with
  | [] => NaN
  | _ => np_corrcoef (map fst v) (map snd v)
  end.

(** What [frame[name]] selects in a frame whose columns are labelled
    [[l1, l2]]: a series when one label matches, a frame holding both columns
    when the two labels are the same. *)
Inductive selection :=
| Column (s : series)
| Columns (f : frame).

Definition frame_getitem (l1 l2 : string) (f : frame) (name : string)
  : outcome selection :=
  match String.eqb l1 name, String.eqb l2 name with
  | true, true => Ok (Columns f)
  | true, false => Ok (Column (column_a f))
  | false, true => Ok (Column (column_b f))
  | false, false => Raise (Exn KeyError name)
  end.

(** What [DataFrame.__bool__] raises, in the wording of pandas 2 (pandas 3.0
    words it without [a.bool()]). *)
Definition ambiguous_truth_error : exn :=
  Exn ValueError
      "The truth value of a DataFrame is ambiguous. Use a.empty, a.bool(), a.item(), a.any() or a.all().".

(** [x.corr(y)].  On a frame selection the argument lands in [DataFrame.corr]'s
    [method] parameter and its test raises. *)
Definition selection_corr (x y : selection) : outcome pyfloat :=
  match x, y with
  | Column a, Column b => Ok (series_corr a b)
  | _, _ => Raise ambiguous_truth_error
  end.

(** [x.cov(y)], likewise. *)
Definition selection_cov (x y : selection) : outcome pyfloat :=
  match x, y with
  | Column a, Column b => Ok (series_cov a b)
  | _, _ => Raise ambiguous_truth_error
  end.

Definition out_of_bounds_error : exn :=
  Exn IndexError "index 0 is out of bounds for axis 0 with size 0".

(** [f.index[0]] *)
Definition index_first (f : frame) : outcome timestamp :=
  match f with
  | [] => Raise out_of_bounds_error
  | r :: _ => Ok (r_ts r)
  end.

(** [f.index[-1]] *)
Definition index_last (f : frame) : outcome timestamp :=
  match f with
  | [] => Raise out_of_bounds_error
  | r :: f' => Ok (r_ts (last f' r))
  end.

End Pd.

(* ================================================================== *)
(** * The calculator *)
(* ================================================================== *)

Module CorrelationCalculator.

Import Py Np Pd.
Open Scope string_scope.
Open Scope py_scope.

(** What one call of [yf.download] does: hand back a frame, or raise. *)
Inductive download_outcome :=
| Downloaded (d : dataframe)
| DownloadRaises (e : exn).

(** Everything outside the module that a call depends on: the clock behind
    [datetime.now()], the market data service behind [yf.download], and the
    installed pandas' default [fill_method] of [pct_change]. *)
Record world := World {
  clock : pytime;
  yf_download : string -> pytime -> pytime -> download_outcome;
  pad_default : bool
}.

(** One request sent to the service. *)
Record call := Call {
  call_ticker : string;
  call_start : pytime;
  call_end : pytime
}.

(** The state threaded through a calculation: the requests made so far. *)
Definition log := list call.

(** [yf.download(ticker, start=start_date, end=end_date, progress=False)] *)
Definition download (w : world) (ticker : string) (start_date end_date : pytime)
  : M log dataframe :=
  fun l =>
    (match yf_download w ticker start_date end_date with
     | Downloaded d => Ok d
     | DownloadRaises e => Raise e
     end,
     (l ++ [Call ticker start_date end_date])%list).

Definition fetch_stock_data (w : world) (ticker : string)
    (start_date end_date : pytime) : M log series :=
  try_except
    (data <- download w ticker start_date end_date ;;
     if df_empty data || negb (has_column "Adj Close" data)
     then raise (Exn ValueError ("No data found for ticker " ++ ticker))
     else ret (getitem data "Adj Close"))
    (fun e =>
       raise (Exn ValueError
                ("Error fetching data for " ++ ticker ++ ": " ++ str e))).

(** The dictionary [calculate] returns. *)
Record result := Result {
  correlation : pyfloat;
  covariance : pyfloat;
  start_date : pytime;
  end_date : pytime;
  ticker1 : string;
  ticker2 : string;
  data_points : Z;
  first_date : Z;
  last_date : Z;
  trading_days : Z
}.

(** [x.date() if isinstance(x, datetime) else x] *)
Definition date_val (x : pytime) : pytime :=
  if is_datetime x then date_of_datetime x else x.

(** [len(frame)] *)
Definition len (f : frame) : Z := Z.of_nat (List.length f).

Definition insufficient_msg : string :=
  "Insufficient data points for correlation calculation".

Definition nan_msg : string := "Calculation resulted in NaN values".

(** The body of the [try] block of [calculate]. *)
Definition pipeline (w : world) (t1 t2 : string)
    (start_date end_date : option pytime) : M log result :=
  (* 1. set default dates if not provided *)
  let end_date := match end_date with
                  | Some e => e
                  | None => clock w
                  end in
  start_date <- match start_date with
                | Some s => ret s
                | None => lift (sub_days end_date 365)
                end ;;
  (* 2. convert datetime to date if necessary *)
  let start_date_val := date_val start_date in
  let end_date_val := date_val end_date in
  (* 3. fetch stock data *)
  stock1_data <- fetch_stock_data w t1 start_date end_date ;;
  stock2_data <- fetch_stock_data w t2 start_date end_date ;;
  (* 4. create the table with both series, columns [t1, t2] *)
  combined_data <- lift (concat stock1_data stock2_data) ;;
  (* 5. compute daily returns, remove any NaN values *)
  let returns := dropna (pct_change (pad_default w) combined_data) in
  (* 6. check for sufficient data points *)
  if (len returns <? 2)%Z then raise (Exn ValueError insufficient_msg)
  else
    x <- lift (frame_getitem t1 t2 returns t1) ;;
    y <- lift (frame_getitem t1 t2 returns t2) ;;
    correlation <- lift (selection_corr x y) ;;
    x' <- lift (frame_getitem t1 t2 returns t1) ;;
    y' <- lift (frame_getitem t1 t2 returns t2) ;;
    covariance <- lift (selection_cov x' y') ;;
    (* validate results *)
    if isna correlation || isna covariance
    then raise (Exn ValueError nan_msg)
    else
      (* first and last dates from the index *)
      first_date <- lift (index_first returns) ;;
      last_date <- lift (index_last returns) ;;
      ret {| correlation := pyround correlation 4;
             covariance := pyround covariance 6;
             start_date := start_date_val;
             end_date := end_date_val;
             ticker1 := t1;
             ticker2 := t2;
             data_points := len returns;
             first_date := strftime_Ymd first_date;
             last_date := strftime_Ymd last_date;
             trading_days := len combined_data |}.

(** [raise ValueError(f"Calculation error: {str(e)}")] *)
Definition calculation_error (e : exn) : exn :=
  Exn ValueError ("Calculation error: " ++ str e).

Definition calculate (w : world) (t1 t2 : string)
    (start_date end_date : option pytime) : M log result :=
  try_except (pipeline w t1 t2 start_date end_date)
             (fun e => raise (calculation_error e)).

(** ** Vocabulary for statements about a run *)

(** The end of the range after defaulting. *)
Definition resolved_end (w : world) (end_date : option pytime) : pytime :=
  match end_date with
  | Some e => e
  | None => clock w
  end.

(** The start of the range after defaulting; the subtraction may raise. *)
Definition resolved_start (w : world) (start_date end_date : option pytime)
  : outcome pytime :=
  match start_date with
  | Some s => Ok s
  | None => sub_days (resolved_end w end_date) 365
  end.

(** What a fetch yields, apart from the request it logs. *)
Definition fetched (w : world) (ticker : string) (a b : pytime) : outcome series :=
  fst (fetch_stock_data w ticker a b []).

(** The cleaned return rows of an aligned table. *)
Definition returns_of (w : world) (combined : frame) : frame :=
  dropna (pct_change (pad_default w) combined).

(** [calculate] gets as far as the aligned table [combined], for the range
    [a], [b] and the fetched series [s1], [s2]. *)
Definition aligned (w : world) (t1 t2 : string) (start_date end_date : option pytime)
    (a b : pytime) (s1 s2 : series) (combined : frame) : Prop :=
  resolved_start w start_date end_date = Ok a
  /\ resolved_end w end_date = b
  /\ fetched w t1 a b = Ok s1
  /\ fetched w t2 a b = Ok s2
  /\ concat s1 s2 = Ok combined.

(** The result assembled from the returns of a table. *)
Definition assembled (t1 t2 : string) (sv ev : pytime) (combined returns : frame)
    (first last : timestamp) : result :=
  {| correlation := pyround (series_corr (column_a returns) (column_b returns)) 4;
     covariance := pyround (series_cov (column_a returns) (column_b returns)) 6;
     start_date := sv;
     end_date := ev;
     ticker1 := t1;
     ticker2 := t2;
     data_points := len returns;
     first_date := strftime_Ymd first;
     last_date := strftime_Ymd last;
     trading_days := len combined |}.

(** Steps 4 to 8 of [calculate] as a function of the two fetched series:
    what they yield, case by case. *)
Definition analyse (pad : bool) (t1 t2 : string) (sv ev : pytime)
    (s1 s2 : series) : outcome result :=
  match concat s1 s2 with
  | Raise x => Raise x
  | Ok combined =>
      let returns := dropna (pct_change pad combined) in
      if (len returns <? 2)%Z then Raise (Exn ValueError insufficient_msg)
      else if String.eqb t1 t2 then Raise ambiguous_truth_error
      else if isna (series_corr (column_a returns) (column_b returns))
              || isna (series_cov (column_a returns) (column_b returns))
      then Raise (Exn ValueError nan_msg)
      else match returns with
           | [] => Raise out_of_bounds_error
           | r :: rest =>
               Ok (assembled t1 t2 sv ev combined returns
                             (r_ts r) (r_ts (last rest r)))
           end
  end.



(** The failures [calculate] reports, as the caller sees them. *)
Definition insufficient_data : exn :=
  calculation_error (Exn ValueError insufficient_msg).

Definition nan_result : exn :=
  calculation_error (Exn ValueError nan_msg).

(** The failures of [fetch_stock_data] at its own boundary. *)
Definition fetch_error (ticker detail : string) : exn :=
  Exn ValueError ("Error fetching data for " ++ ticker ++ ": " ++ detail).

Definition no_data_msg (ticker : string) : string :=
  "No data found for ticker " ++ ticker.

(** The test [data.empty or "Adj Close" not in data.columns]. *)
Definition lacks_data (d : dataframe) : bool :=
  df_empty d || negb (has_column "Adj Close" d).

End CorrelationCalculator.

(* ================================================================== *)
(** * A small market, for concrete runs *)
(* ================================================================== *)

Module Fixtures.

Import Py Np Pd CorrelationCalculator.
Open Scope string_scope.
Open Scope Z_scope.

(** Midnight of the day with ordinal [n]. *)
Definition day (n : Z) : timestamp := n * us_per_day.

Definition three_days : list timestamp := [day 739001; day 739002; day 739003].

Definition quotes (idx : list timestamp) (prices : list R) : dataframe :=
  DataFrame idx [("Close", map Fin prices); ("Adj Close", map Fin prices)].

Definition aaa : dataframe := quotes three_days [1; 2; 6]%R.
Definition bbb : dataframe := quotes three_days [4; 2; 6]%R.
Definition flat : dataframe := quotes three_days [5; 5; 5]%R.
Definition newco : dataframe := quotes [day 739002; day 739003] [3; 4]%R.
Definition gappy : dataframe := quotes [day 739001; day 739003] [3; 4]%R.
Definition gone : dataframe := DataFrame [] [].
Definition raw : dataframe := DataFrame three_days [("Close", map Fin [1; 2; 6]%R)].

Definition refused : exn := Exn (Other "ConnectionError") "connection refused".

(** A service that knows a handful of tickers and refuses the rest. *)
Definition service (t : string) (a b : pytime) : download_outcome :=
  if String.eqb t "AAA" then Downloaded aaa
  else if String.eqb t "BBB" then Downloaded bbb
  else if String.eqb t "FLAT" then Downloaded flat
  else if String.eqb t "NEW" then Downloaded newco
  else if String.eqb t "GAP" then Downloaded gappy
  else if String.eqb t "GONE" then Downloaded gone
  else if String.eqb t "RAW" then Downloaded raw
  else DownloadRaises refused.

(** Noon of day 739100, pandas forward-filling by default. *)
Definition market : world :=
  World (PyDateTime 739100 43200000000) service true.

(** The same market under a pandas that does not fill. *)
Definition market_no_fill : world :=
  World (PyDateTime 739100 43200000000) service false.

(** A service that is down, and says so in the words of the no-data
    message. *)
Definition outage : world :=
  World (PyDateTime 739100 43200000000)
        (fun t _ _ =>
           DownloadRaises (Exn (Other "ConnectionError")
                               ("No data found for ticker " ++ t)))
        true.

Definition from : pytime := PyDate 739000.
Definition upto : pytime := PyDate 739010.

(** The aligned tables and cleaned returns of the runs used below. *)

Definition aaa_bbb : frame :=
  [Row (day 739001) (Fin 1) (Fin 4);
   Row (day 739002) (Fin 2) (Fin 2);
   Row (day 739003) (Fin 6) (Fin 6)].

Definition aaa_bbb_rows : frame :=
  [Row (day 739002) (Fin (2 / 1 - 1)) (Fin (2 / 4 - 1));
   Row (day 739003) (Fin (6 / 2 - 1)) (Fin (6 / 2 - 1))].

(** The result of correlating AAA with BBB over the requested range. *)
Definition aaa_bbb_result (a b : pytime) : result :=
  assembled "AAA" "BBB" (date_val a) (date_val b) aaa_bbb aaa_bbb_rows
            (day 739002) (day 739003).

Definition aaa_new : frame :=
  [Row (day 739001) (Fin 1) NaN;
   Row (day 739002) (Fin 2) (Fin 3);
   Row (day 739003) (Fin 6) (Fin 4)].

Definition flat_aaa : frame :=
  [Row (day 739001) (Fin 5) (Fin 1);
   Row (day 739002) (Fin 5) (Fin 2);
   Row (day 739003) (Fin 5) (Fin 6)].

Definition aaa_gap : frame :=
  [Row (day 739001) (Fin 1) (Fin 3);
   Row (day 739002) (Fin 2) NaN;
   Row (day 739003) (Fin 6) (Fin 4)].

(** The returns of AAA and GAP when [pct_change] fills forward: GAP has no
    price on day 739002 and keeps the one of the day before. *)
Definition aaa_gap_rows : frame :=
  [Row (day 739002) (Fin (2 / 1 - 1)) (Fin (3 / 3 - 1));
   Row (day 739003) (Fin (6 / 2 - 1)) (Fin (4 / 3 - 1))].

Definition aaa_gap_result : result :=
  assembled "AAA" "GAP" (date_val from) (date_val upto) aaa_gap aaa_gap_rows
            (day 739002) (day 739003).






End Fixtures.

(* ================================================================== *)
(** * More vocabulary *)
(* ================================================================== *)

Module More.

Import Py Np Pd CorrelationCalculator Fixtures.
Open Scope string_scope.
Open Scope Z_scope.

(** A price that is a number other than zero. *)
Definition nonzero_price (v : pyfloat) : Prop :=
  exists p, v = Fin p /\ p <> 0%R.

End More.

(* ================================================================== *)
(** * The API view ([correlation_analysis/views.py]) *)
(* ================================================================== *)

Module View.

Import Py Np Pd CorrelationCalculator.
Open Scope string_scope.
Open Scope py_scope.
Open Scope Z_scope.

(** A value held under a key of the result dictionary or of a model row.
    [VIsoText day] is the text [strftime("%Y-%m-%d")] produced, kept as the
    day it renders. *)
Inductive value :=
| VFloat (x : pyfloat)
| VInt (n : Z)
| VStr (s : string)
| VIsoText (day : Z)
| VDate (d : pytime).

Definition pydict := list (string * value).

(** The dictionary [calculate] returns, keys in the order of its literal. *)
Definition as_dict (r : result) : pydict :=
  [("correlation", VFloat (correlation r));
   ("covariance", VFloat (covariance r));
   ("start_date", VDate (start_date r));
   ("end_date", VDate (end_date r));
   ("ticker1", VStr (ticker1 r));
   ("ticker2", VStr (ticker2 r));
   ("data_points", VInt (data_points r));
   ("first_date", VIsoText (first_date r));
   ("last_date", VIsoText (last_date r));
   ("trading_days", VInt (trading_days r))].

(** [d[key]] *)
Fixpoint dict_get (d : pydict) (key : string) : outcome value :=
  match d with
  | [] => Raise (Exn KeyError key)
  | (k, v) :: d' => if String.eqb k key then Ok v else dict_get d' key
  end.

(** [d[key] = v]: an existing key keeps its place. *)
Fixpoint dict_set (d : pydict) (key : string) (v : value) : pydict :=
  match d with
  | [] => [(key, v)]
  | (k, x) :: d' =>
      if String.eqb k key then (k, v) :: d' else (k, x) :: dict_set d' key v
  end.

(** [datetime.strptime(text, "%Y-%m-%d").date()] *)
Definition strptime_date (v : value) : outcome value :=
  match v with
  | VIsoText day => Ok (VDate (PyDate day))
  | _ => Raise (Exn (Other "TypeError") "strptime() argument 1 must be str")
  end.

(** [[f.name for f in CorrelationAnalysis._meta.fields]]: the fields declared
    in [models.py], after the [id] Django adds. *)
Definition model_fields : list string :=
  ["id"; "ticker1"; "ticker2"; "correlation"; "covariance";
   "start_date"; "end_date"; "first_date"; "last_date";
   "data_points"; "trading_days"; "created_at"].

(** [k in model_fields] *)
Definition is_model_field (k : string) : bool :=
  existsb (String.eqb k) model_fields.

(** What [is_valid()] leaves in the request serializer: its errors, or the
    validated data.  The serializer's [DateField]s yield [date] objects,
    kept here as ordinals; an absent date is [None]. *)
Inductive validation :=
| Rejected (errors : list (string * string))
| Accepted (ticker1 ticker2 : string) (start_date end_date : option Z).

(** The installation: the world of the calculator, and the database, which
    may refuse to create a row. *)
Record site := Site {
  site_world : world;
  create_raises : pydict -> option exn
}.

(** The state a request acts on: the requests sent to the price service and
    the rows of the [CorrelationAnalysis] table. *)
Record state := State {
  requests : log;
  rows : list pydict
}.

Inductive body :=
| Errors (errors : list (string * string))
| ErrorMessage (msg : string)
| Analysis (row : pydict).

Record response := Response {
  resp_body : body;
  resp_status : Z
}.

(** A computation on the request log, run on the state. *)
Definition on_requests {A} (m : M log A) : M state A :=
  fun st =>
    match m (requests st) with
    | (o, l) => (o, State l (rows st))
    end.

(** [CorrelationAnalysis.objects.create], the row given as keyword
    arguments. *)
Definition objects_create (s : site) (kwargs : pydict) : M state pydict :=
  fun st =>
    match create_raises s kwargs with
    | Some e => (Raise e, st)
    | None => (Ok kwargs, State (requests st) (rows st ++ [kwargs])%list)
    end.

(** [isinstance(e, ValueError)]; the classes behind [Other] are taken not
    to derive from [ValueError]. *)
Definition is_value_error (e : exn) : bool :=
  match exn_cls e with
  | ValueError => true
  | _ => false
  end.

(** [CorrelationAnalysisView.post] from the outcome of
    [serializer.is_valid()] on.  What comes before it, the parsing of
    [request.data], and the rendering of the stored row by the response
    serializer are left to the framework and not part of this function. *)
Definition post (s : site) (v : validation) : M state response :=
  match v with
  | Rejected errors => ret (Response (Errors errors) 400)
  | Accepted t1 t2 start_date end_date =>
      try_except
        (result <- on_requests
                     (calculate (site_world s) t1 t2
                                (option_map PyDate start_date)
                                (option_map PyDate end_date)) ;;
         let result := as_dict result in
         (* convert string dates to datetime.date objects *)
         text <- lift (dict_get result "first_date") ;;
         first <- lift (strptime_date text) ;;
         let result := dict_set result "first_date" first in
         text <- lift (dict_get result "last_date") ;;
         last <- lift (strptime_date text) ;;
         let result := dict_set result "last_date" last in
         (* only the fields that match the model *)
         let filtered_result :=
           filter (fun kv => is_model_field (fst kv)) result in
         analysis <- objects_create s filtered_result ;;
         ret (Response (Analysis analysis) 201))
        (fun e =>
           if is_value_error e
           then ret (Response (ErrorMessage (str e)) 400)
           else ret (Response
                       (ErrorMessage ("An unexpected error occurred: " ++ str e))
                       500))
  end.

(** ** Vocabulary *)

(** The row the view hands to the database for a result. *)
Definition stored_row (r : result) : pydict :=
  [("correlation", VFloat (correlation r));
   ("covariance", VFloat (covariance r));
   ("start_date", VDate (start_date r));
   ("end_date", VDate (end_date r));
   ("ticker1", VStr (ticker1 r));
   ("ticker2", VStr (ticker2 r));
   ("data_points", VInt (data_points r));
   ("first_date", VDate (PyDate (first_date r)));
   ("last_date", VDate (PyDate (last_date r)));
   ("trading_days", VInt (trading_days r))].

(** The call of [calculate] the view makes for an accepted request. *)
Definition calculation (s : site) (t1 t2 : string) (sd ed : option Z)
  : M log result :=
  calculate (site_world s) t1 t2 (option_map PyDate sd) (option_map PyDate ed).

(** ** Fixtures *)

(** The market of [Fixtures] with a database that stores every row. *)
Definition shop : site := Site Fixtures.market (fun _ => None).

(** The same market with a database that is locked. *)
Definition locked : exn := Exn (Other "OperationalError") "database is locked".

Definition closed_shop : site := Site Fixtures.market (fun _ => Some locked).

Definition fresh : state := State [] [].

End View.

(* ================================================================== *)
(** * The command line entry point ([manage.py]) *)
(* ================================================================== *)

Module Manage.

Import Py.
Open Scope string_scope.
Open Scope py_scope.

(** [os.environ] *)
Definition environ := string -> option string.

Definition settings_variable : string := "DJANGO_SETTINGS_MODULE".

Definition dev_settings : string := "quant_sandbox.settings.dev".

(** [os.getenv(key)] *)
Definition getenv (key : string) : M environ (option string) :=
  fun env => (Ok (env key), env).

(** [os.environ.setdefault(key, value)]: a variable that is set, to whatever
    value, is left alone. *)
Definition setdefault (key value : string) : M environ unit :=
  fun env =>
    (Ok tt,
     match env key with
     | Some _ => env
     | None => fun k => if String.eqb k key then Some value else env k
     end).

(** The truth value of what [os.getenv] returns: [None] and the empty
    string are false. *)
Definition truthy (v : option string) : bool :=
  match v with
  | None => false
  | Some s => negb (String.eqb s "")
  end.

(** [flag in sys.argv]: some argument is exactly the flag. *)
Definition in_argv (flag : string) (argv : list string) : bool :=
  existsb (String.eqb flag) argv.

Definition import_error (msg : string) : exn := Exn (Other "ImportError") msg.

(** [from django.core.management import execute_from_command_line] *)
Definition import_django (installed : bool) : M environ unit :=
  if installed then ret tt
  else raise (import_error "No module named 'django'").

(** [main()]; [installed] tells whether Django can be imported and
    [execute_from_command_line] is Django's command runner. *)
Definition main (installed : bool)
    (execute_from_command_line : list string -> M environ unit)
    (argv : list string) : M environ unit :=
  _ <- (if negb (in_argv "--settings" argv)
        then
          v <- getenv settings_variable ;;
          if negb (truthy v)
          then setdefault settings_variable dev_settings
          else ret tt
        else ret tt) ;;
  _ <- try_except (import_django installed)
                  (fun exc => raise (import_error "Couldn't import Django.")) ;;
  execute_from_command_line argv.

(** ** Fixtures *)

Definition empty_environ : environ := fun _ => None.

Definition blank_settings : environ :=
  fun k => if String.eqb k settings_variable then Some "" else None.

(** A command runner that does nothing. *)
Definition idle (argv : list string) : M environ unit := ret tt.

End Manage.

(* ================================================================== *)
(** * Production settings ([quant_sandbox/settings/prod.py]) *)
(* ================================================================== *)

Module Prod.

Open Scope N_scope.

(** A Python [str]: its code points. *)
Definition text := list N.

Definition comma : N := 44.

(** [c.isspace()] for one code point. *)
Definition isspace (c : N) : bool :=
  ((9 <=? c) && (c <=? 13))
  || ((28 <=? c) && (c <=? 32))
  || (c =? 133) || (c =? 160) || (c =? 5760)
  || ((8192 <=? c) && (c <=? 8202))
  || (c =? 8232) || (c =? 8233) || (c =? 8239) || (c =? 8287)
  || (c =? 12288).

(** [s.lstrip()] *)
Fixpoint lstrip (s : text) : text :=
  match s with
  | [] => []
  | c :: s' => if isspace c then lstrip s' else s
  end.

(** [s.rstrip()] *)
Fixpoint rstrip (s : text) : text :=
  match s with
  | [] => []
  | c :: s' =>
      match rstrip s' with
      | [] => if isspace c then [] else [c]
      | kept => c :: kept
      end
  end.

(** [s.strip()] *)
Definition strip (s : text) : text := rstrip (lstrip s).

(** [v.split(sep)] for a separator of one code point: the pieces between
    the separators, empty pieces included. *)
Fixpoint split (sep : N) (v : text) : list text :=
  match v with
  | [] => [[]]
  | c :: v' =>
      if c =? sep then [] :: split sep v'
      else match split sep v' with
           | [] => [[c]]
           | piece :: pieces => (c :: piece) :: pieces
           end
  end.

(** The [cast] of [CORS_ALLOWED_ORIGINS]:
    [lambda v: [s.strip() for s in v.split(",")]] *)
Definition cast_origins (v : text) : list text :=
  map strip (split comma v).

(** ** Vocabulary *)

(** [",".join(items)] *)
Fixpoint join_commas (items : list text) : text :=
  match items with
  | [] => []
  | [item] => item
  | item :: rest => (item ++ comma :: join_commas rest)%list
  end.

(** An origin as the cast leaves it: no comma inside, no white space at
    either end. *)
Definition clean (o : text) : Prop :=
  ~ In comma o
  /\ (forall c, hd_error o = Some c -> isspace c = false)
  /\ (forall c, hd_error (rev o) = Some c -> isspace c = false).

(** "https://a.io, https://b.io" *)
Definition two_origins : text :=
  [104; 116; 116; 112; 115; 58; 47; 47; 97; 46; 105; 111; 44; 32;
   104; 116; 116; 112; 115; 58; 47; 47; 98; 46; 105; 111].

End Prod.

(* ================================================================== *)
(** * Facts about column values and the statistics *)
(* ================================================================== *)

Module NpFacts.

Import Np.
Open Scope R_scope.

Ltac float_cases :=
  repeat match goal with
         | x : pyfloat |- _ => destruct x
         end.

Lemma fadd_comm (x y : pyfloat) : fadd x y = fadd y x.
Proof. float_cases; simpl; try reflexivity. f_equal; lra. Qed.

Lemma fadd_assoc (x y z : pyfloat) : fadd x (fadd y z) = fadd (fadd x y) z.
Proof. float_cases; simpl; try reflexivity. f_equal; lra. Qed.

Lemma fadd_zero_l (x : pyfloat) : fadd (Fin 0) x = x.
Proof. destruct x; simpl; try reflexivity. f_equal; lra. Qed.

Lemma fold_fadd_acc (xs : list pyfloat) (acc : pyfloat) :
  fold_left fadd xs acc = fadd acc (fold_left fadd xs (Fin 0)).
Proof.
  revert acc; induction xs as [|x xs IH]; intros acc; cbn [fold_left].
  - rewrite fadd_comm, fadd_zero_l; reflexivity.
  - rewrite IH, (IH (fadd (Fin 0) x)), fadd_zero_l, fadd_assoc; reflexivity.
Qed.

Lemma np_sum_cons (x : pyfloat) (xs : list pyfloat) :
  np_sum (x :: xs) = fadd x (np_sum xs).
Proof.
  unfold np_sum; cbn [fold_left]. rewrite fold_fadd_acc, fadd_zero_l; reflexivity.
Qed.

Lemma np_sum_nil : np_sum [] = Fin 0.
Proof. reflexivity. Qed.

(** ** Sums, means and products of finite columns are the real ones *)

Lemma np_sum_reals (rs : list R) : np_sum (map Fin rs) = Fin (rsum rs).
Proof.
  induction rs as [|r rs IH]; [reflexivity|].
  simpl map. rewrite np_sum_cons, IH. reflexivity.
Qed.

Lemma fdiv_reals (a b : R) : b <> 0 -> fdiv (Fin a) (Fin b) = Fin (a / b).
Proof. intros H; simpl. destruct (Req_dec_T b 0); [contradiction|reflexivity]. Qed.

Lemma INR_length_pos {A} (l : list A) : l <> [] -> 0 < INR (List.length l).
Proof.
  destruct l; [congruence|]. intros _. apply lt_0_INR. simpl; lia.
Qed.

Lemma np_mean_reals (rs : list R) :
  rs <> [] -> np_mean (map Fin rs) = Fin (rmean rs).
Proof.
  intros H. unfold np_mean, of_nat. rewrite np_sum_reals, length_map.
  apply fdiv_reals. pose proof (INR_length_pos rs H); lra.
Qed.

Lemma demean_reals (rs : list R) :
  rs <> [] -> demean (map Fin rs) = map Fin (rdemean rs).
Proof.
  intros H. unfold demean, rdemean. rewrite np_mean_reals by assumption.
  rewrite !map_map. apply map_ext. intros x; reflexivity.
Qed.

Lemma products_reals (xs ys : list R) :
  products (map Fin xs) (map Fin ys) = map Fin (rproducts xs ys).
Proof.
  revert ys; induction xs as [|x xs IH]; intros [|y ys]; simpl; try reflexivity.
  rewrite IH; reflexivity.
Qed.

Lemma cov_entry_reals (xs ys : list R) :
  (2 <= List.length xs)%nat -> List.length ys = List.length xs ->
  cov_entry (map Fin xs) (map Fin ys) = Fin (rcov xs ys).
Proof.
  intros Hn Hl. unfold cov_entry, np_dot, of_nat.
  assert (xs <> []) by (destruct xs; [simpl in Hn; lia | congruence]).
  assert (ys <> []) by (destruct ys; [simpl in Hl; lia | congruence]).
  rewrite !demean_reals, products_reals, np_sum_reals, length_map by assumption.
  rewrite fdiv_reals.
  - reflexivity.
  - apply not_0_INR. lia.
Qed.


(** ** The variance of a real column is not negative *)

Lemma rdot_cons (x y : R) (xs ys : list R) :
  rdot (x :: xs) (y :: ys) = x * y + rdot xs ys.
Proof. reflexivity. Qed.

Lemma rdot_self_nonneg (xs : list R) : 0 <= rdot xs xs.
Proof.
  induction xs as [|x xs IH]; [unfold rdot; simpl; lra|].
  rewrite rdot_cons. nra.
Qed.

Lemma rcov_self_nonneg (xs : list R) : 0 <= rcov xs xs.
Proof.
  unfold rcov. pose proof (rdot_self_nonneg (rdemean xs)).
  assert (0 <= 1 / INR (List.length xs - 1)).
  { unfold Rdiv. rewrite Rmult_1_l.
    destruct (List.length xs - 1)%nat eqn:E.
    - simpl. rewrite Rinv_0. lra.
    - left. apply Rinv_0_lt_compat. apply lt_0_INR. lia. }
  nra.
Qed.

(** ** Pearson's coefficient *)

Lemma fsqrt_nonneg (r : R) : 0 <= r -> fsqrt (Fin r) = Fin (sqrt r).
Proof. intros H; simpl. destruct (Rlt_dec r 0); [lra|reflexivity]. Qed.

Lemma fdiv_zero_zero (a b : R) : a = 0 -> b = 0 -> fdiv (Fin a) (Fin b) = NaN.
Proof.
  intros Ha Hb; simpl.
  destruct (Req_dec_T b 0); [|contradiction].
  destruct (Req_dec_T a 0); [reflexivity|contradiction].
Qed.

Lemma isna_clip_unit (x : pyfloat) : isna (clip_unit x) = isna x.
Proof.
  destruct x; simpl; try reflexivity.
  destruct (Rlt_dec r (-1)); [reflexivity|].
  destruct (Rlt_dec 1 r); reflexivity.
Qed.

(** Whatever the quotient, the clip leaves NaN or a number of [-1, 1]. *)
Lemma clip_unit_range (x : pyfloat) :
  isna (clip_unit x) = false ->
  exists c, clip_unit x = Fin c /\ -1 <= c <= 1.
Proof.
  destruct x; simpl; intros H; try discriminate.
  - exists 1. split; [reflexivity|lra].
  - exists (-1). split; [reflexivity|lra].
  - destruct (Rlt_dec r (-1)); [exists (-1); split; [reflexivity|lra]|].
    destruct (Rlt_dec 1 r); [exists 1; split; [reflexivity|lra]|].
    exists r. split; [reflexivity|lra].
Qed.

Lemma np_corrcoef_unit (a b : list pyfloat) :
  isna (np_corrcoef a b) = false ->
  exists c, np_corrcoef a b = Fin c /\ -1 <= c <= 1.
Proof. unfold np_corrcoef. apply clip_unit_range. Qed.

(** Two real columns of non-zero variance have a correlation. *)
Lemma np_corrcoef_notna (xs ys : list R) :
  (2 <= List.length xs)%nat -> List.length ys = List.length xs ->
  rcov xs xs <> 0 -> rcov ys ys <> 0 ->
  isna (np_corrcoef (map Fin xs) (map Fin ys)) = false.
Proof.
  intros Hn Hl Hx Hy. unfold np_corrcoef. rewrite isna_clip_unit.
  rewrite (cov_entry_reals xs ys Hn Hl).
  rewrite (cov_entry_reals xs xs Hn eq_refl).
  rewrite (cov_entry_reals ys ys) by lia.
  rewrite !fsqrt_nonneg by apply rcov_self_nonneg.
  rewrite !fdiv_reals; [reflexivity| |].
  - intros E. apply sqrt_eq_0 in E; [contradiction|apply rcov_self_nonneg].
  - intros E. apply sqrt_eq_0 in E; [contradiction|apply rcov_self_nonneg].
Qed.

(** ** Rounding *)

Lemma round_half_even_bounds (y : R) (k : Z) :
  IZR (- k) <= y <= IZR k ->
  (- k <= round_half_even y <= k)%Z.
Proof.
  intros [Hlo Hhi]. unfold round_half_even.
  destruct (base_Int_part y) as [Hf1 Hf2].
  set (f := Int_part y) in *.
  assert (Hfk : (f <= k)%Z) by (apply le_IZR; lra).
  assert (Hkf : (- k <= f)%Z).
  { assert (IZR (- k) < IZR (f + 1)) by (rewrite plus_IZR; lra).
    apply lt_IZR in H. lia. }
  assert (Hup : / 2 <= y - IZR f -> (f + 1 <= k)%Z).
  { intros Hd. assert (IZR f < IZR k) by lra. apply lt_IZR in H. lia. }
  destruct (Rlt_dec (y - IZR f) (/ 2)); [lia|].
  assert (/ 2 <= y - IZR f) by lra.
  specialize (Hup H).
  destruct (Rlt_dec (/ 2) (y - IZR f)); [lia|].
  destruct (Z.even f); lia.
Qed.

Lemma isna_pyround (x : pyfloat) (n : Z) : isna (pyround x n) = isna x.
Proof. destruct x; reflexivity. Qed.

(** Rounding to four places keeps a number of [-1, 1] there. *)
Lemma pyround_unit_range (c : R) :
  -1 <= c <= 1 ->
  exists c', pyround (Fin c) 4 = Fin c' /\ -1 <= c' <= 1.
Proof.
  intros Hc. unfold pyround.
  change (10 ^ 4)%Z with 10000%Z.
  eexists; split; [reflexivity|].
  assert (Hb : -10000 <= c * 10000 <= 10000) by lra.
  destruct (round_half_even_bounds (c * 10000) 10000 Hb) as [Hlo Hhi].
  apply IZR_le in Hlo, Hhi.
  rewrite opp_IZR in Hlo.
  split.
  - apply Rmult_le_reg_r with 10000; [lra|].
    unfold Rdiv. rewrite Rmult_assoc, Rinv_l by lra. lra.
  - apply Rmult_le_reg_r with 10000; [lra|].
    unfold Rdiv. rewrite Rmult_assoc, Rinv_l by lra. lra.
Qed.

(** ** A column of zeros has an undefined correlation with anything *)

Lemma fmul_zero_l (x y : pyfloat) : is_zero x -> is_null (fmul x y).
Proof.
  intros (r & -> & ->). destruct y; simpl.
  - left; reflexivity.
  - destruct (Req_dec_T 0 0); [left; reflexivity|contradiction].
  - destruct (Req_dec_T 0 0); [left; reflexivity|contradiction].
  - right. eexists; split; [reflexivity|ring].
Qed.

Lemma fmul_zero_r (x y : pyfloat) : is_zero y -> is_null (fmul x y).
Proof.
  intros (r & -> & ->). destruct x; simpl.
  - left; reflexivity.
  - destruct (Req_dec_T 0 0); [left; reflexivity|contradiction].
  - destruct (Req_dec_T 0 0); [left; reflexivity|contradiction].
  - right. eexists; split; [reflexivity|ring].
Qed.

Lemma fmul_zero_zero (x y : pyfloat) : is_zero x -> is_zero y -> is_zero (fmul x y).
Proof.
  intros (r & -> & ->) (r' & -> & ->). eexists; split; [reflexivity|ring].
Qed.

Lemma products_null_l (xs ys : list pyfloat) :
  Forall is_zero xs -> Forall is_null (products xs ys).
Proof.
  intros H; revert ys; induction H as [|x xs Hx _ IH]; intros [|y ys]; simpl;
    constructor; [apply fmul_zero_l; assumption|apply IH].
Qed.

Lemma products_null_r (xs ys : list pyfloat) :
  Forall is_zero ys -> Forall is_null (products xs ys).
Proof.
  intros H; revert xs; induction H as [|y ys Hy _ IH]; intros [|x xs]; simpl;
    constructor; [apply fmul_zero_r; assumption|apply IH].
Qed.

Lemma products_zero (xs ys : list pyfloat) :
  Forall is_zero xs -> Forall is_zero ys -> Forall is_zero (products xs ys).
Proof.
  intros H; revert ys; induction H as [|x xs Hx _ IH]; intros ys Hys;
    [constructor|].
  inversion Hys; subst; simpl; constructor;
    [apply fmul_zero_zero; assumption|apply IH; assumption].
Qed.

Lemma np_sum_null (xs : list pyfloat) : Forall is_null xs -> is_null (np_sum xs).
Proof.
  induction 1 as [|x xs Hx _ IH].
  - right. exists 0; split; reflexivity.
  - rewrite np_sum_cons.
    destruct Hx as [->|(r & -> & ->)]; [left; reflexivity|].
    destruct IH as [->|(r' & -> & ->)]; [left; reflexivity|].
    right. eexists; split; [reflexivity|lra].
Qed.

Lemma np_sum_zero (xs : list pyfloat) : Forall is_zero xs -> is_zero (np_sum xs).
Proof.
  induction 1 as [|x xs Hx _ IH].
  - exists 0; split; reflexivity.
  - rewrite np_sum_cons.
    destruct Hx as (r & -> & ->). destruct IH as (r' & -> & ->).
    eexists; split; [reflexivity|lra].
Qed.

Lemma rsum_repeat (c : R) (n : nat) : rsum (repeat c n) = INR n * c.
Proof.
  induction n as [|n IH]; [simpl; unfold rsum; simpl; lra|].
  rewrite S_INR. change (rsum (repeat c (S n))) with (c + rsum (repeat c n)).
  rewrite IH. ring.
Qed.

Lemma demean_constant (n : nat) :
  Forall is_zero (demean (repeat (Fin 0) n)).
Proof.
  destruct n as [|n]; [constructor|].
  replace (repeat (Fin 0) (S n)) with (map Fin (repeat 0 (S n)))
    by (rewrite map_repeat; reflexivity).
  rewrite demean_reals by discriminate.
  unfold rdemean. rewrite map_map.
  apply Forall_forall. intros x Hx. apply in_map_iff in Hx.
  destruct Hx as (y & <- & Hy). apply repeat_spec in Hy. subst y.
  eexists; split; [reflexivity|].
  unfold rmean. rewrite rsum_repeat, repeat_length.
  assert (0 < INR (S n)) by (apply lt_0_INR; lia).
  field. lra.
Qed.

Lemma scale_finite (n : nat) :
  (1 <= n)%nat -> exists k, fdiv (Fin 1) (of_nat n) = Fin k.
Proof.
  intros H. unfold of_nat. rewrite fdiv_reals.
  - eexists; reflexivity.
  - apply not_0_INR. lia.
Qed.

Lemma fmul_null_finite (x : pyfloat) (k : R) : is_null x -> is_null (fmul x (Fin k)).
Proof.
  intros [->|(r & -> & ->)]; [left; reflexivity|].
  right. eexists; split; [reflexivity|ring].
Qed.

Lemma fmul_zero_finite (x : pyfloat) (k : R) : is_zero x -> is_zero (fmul x (Fin k)).
Proof. intros (r & -> & ->). eexists; split; [reflexivity|ring]. Qed.

Lemma fsqrt_zero (x : pyfloat) : is_zero x -> is_zero (fsqrt x).
Proof.
  intros (r & -> & ->). simpl.
  destruct (Rlt_dec 0 0); [lra|]. eexists; split; [reflexivity|apply sqrt_0].
Qed.

Lemma fdiv_null_zero (x y : pyfloat) : is_null x -> is_zero y -> fdiv x y = NaN.
Proof.
  intros [->|(r & -> & ->)] (r' & -> & ->); [reflexivity|].
  apply fdiv_zero_zero; reflexivity.
Qed.

Lemma fdiv_null (x y : pyfloat) : is_null x -> is_null (fdiv x y).
Proof.
  intros [->|(r & -> & ->)]; [left; reflexivity|].
  destruct y; simpl.
  - left; reflexivity.
  - right; eexists; split; reflexivity.
  - right; eexists; split; reflexivity.
  - destruct (Req_dec_T r 0).
    + destruct (Req_dec_T 0 0); [left; reflexivity|contradiction].
    + right; eexists; split; [reflexivity|]. unfold Rdiv; ring.
Qed.

Lemma cov_entry_constant_self (n : nat) :
  (2 <= n)%nat -> is_zero (cov_entry (repeat (Fin 0) n) (repeat (Fin 0) n)).
Proof.
  intros Hn. unfold cov_entry, np_dot. rewrite repeat_length.
  destruct (scale_finite (n - 1)) as [k ->]; [lia|].
  apply fmul_zero_finite, np_sum_zero, products_zero; apply demean_constant.
Qed.

Lemma cov_entry_constant_l (n : nat) (ys : list pyfloat) :
  (2 <= n)%nat -> is_null (cov_entry (repeat (Fin 0) n) ys).
Proof.
  intros Hn. unfold cov_entry, np_dot. rewrite repeat_length.
  destruct (scale_finite (n - 1)) as [k ->]; [lia|].
  apply fmul_null_finite, np_sum_null, products_null_l, demean_constant.
Qed.

Lemma cov_entry_constant_r (n : nat) (xs : list pyfloat) :
  (2 <= List.length xs)%nat -> is_null (cov_entry xs (repeat (Fin 0) n)).
Proof.
  intros Hn. unfold cov_entry, np_dot.
  destruct (scale_finite (List.length xs - 1)) as [k ->]; [lia|].
  apply fmul_null_finite, np_sum_null, products_null_r, demean_constant.
Qed.

(** Zero variance in the first column: 0/0. *)
Lemma np_corrcoef_constant_l (n : nat) (ys : list pyfloat) :
  (2 <= n)%nat -> np_corrcoef (repeat (Fin 0) n) ys = NaN.
Proof.
  intros Hn. unfold np_corrcoef.
  rewrite (fdiv_null_zero (cov_entry _ ys)).
  - reflexivity.
  - apply cov_entry_constant_l; assumption.
  - apply fsqrt_zero, cov_entry_constant_self; assumption.
Qed.

(** Zero variance in the second column. *)
Lemma np_corrcoef_constant_r (n : nat) (xs : list pyfloat) :
  (2 <= n)%nat -> (2 <= List.length xs)%nat ->
  np_corrcoef xs (repeat (Fin 0) n) = NaN.
Proof.
  intros Hn Hx. unfold np_corrcoef.
  rewrite fdiv_null_zero; [reflexivity| |].
  - apply fdiv_null, cov_entry_constant_r; assumption.
  - apply fsqrt_zero, cov_entry_constant_self; assumption.
Qed.

End NpFacts.

(* ================================================================== *)
(** * Facts about alignment, returns and the drop of incomplete rows *)
(* ================================================================== *)

Module PdFacts.

Import Py Np Pd.
Open Scope Z_scope.

(** ** [concat]: an outer join on the index *)

Lemma mem_In (ts : timestamp) (l : list timestamp) : mem ts l = true <-> In ts l.
Proof.
  induction l as [|k l IH]; simpl.
  - split; [discriminate|contradiction].
  - rewrite orb_true_iff, IH, Z.eqb_eq. tauto.
Qed.

Lemma has_duplicates_NoDup (l : list timestamp) :
  has_duplicates l = false <-> NoDup l.
Proof.
  induction l as [|k l IH]; simpl.
  - split; [constructor|reflexivity].
  - rewrite orb_false_iff, IH. split.
    + intros [Hm Hn]. constructor; [|assumption].
      rewrite <- mem_In. rewrite Hm. discriminate.
    + intros H; inversion H; subst. split; [|assumption].
      destruct (mem k l) eqn:E; [|reflexivity].
      apply mem_In in E. contradiction.
Qed.

Lemma insert_sorted_In (ts x : timestamp) (l : list timestamp) :
  In x (insert_sorted ts l) <-> x = ts \/ In x l.
Proof.
  induction l as [|k l IH]; simpl.
  - intuition.
  - destruct (Z.leb_spec ts k); [simpl; intuition|].
    simpl. rewrite IH. intuition.
Qed.

Lemma sorted_labels_In (x : timestamp) (l : list timestamp) :
  In x (fold_right insert_sorted [] l) <-> In x l.
Proof.
  induction l as [|k l IH]; simpl; [tauto|].
  rewrite insert_sorted_In, IH. intuition.
Qed.

Lemma remove_one_In (ts x : timestamp) (l : list timestamp) :
  In x (remove_one ts l) -> In x l.
Proof.
  induction l as [|k l IH]; simpl; [tauto|].
  destruct (Z.eqb k ts); simpl; intuition.
Qed.

Lemma remove_one_other (ts x : timestamp) (l : list timestamp) :
  In x l -> x = ts \/ In x (remove_one ts l).
Proof.
  induction l as [|k l IH]; simpl; [tauto|].
  destruct (Z.eqb_spec k ts) as [->|Hk]; simpl; intuition.
Qed.

Lemma unmatched_In (x : timestamp) (i j : list timestamp) :
  In x (unmatched i j) -> In x j.
Proof.
  unfold unmatched. revert j; induction i as [|k i IH]; intros j H; simpl in H.
  - assumption.
  - apply IH in H. apply remove_one_In in H. assumption.
Qed.

Lemma unmatched_other (x : timestamp) (i j : list timestamp) :
  In x j -> In x i \/ In x (unmatched i j).
Proof.
  unfold unmatched. revert j; induction i as [|k i IH]; intros j H; simpl.
  - right; assumption.
  - destruct (remove_one_other k x j H) as [->|H']; [left; left; reflexivity|].
    destruct (IH _ H'); [left; right|right]; assumption.
Qed.

Lemma union_index_In (x : timestamp) (i j : list timestamp) :
  In x (union_index i j) <-> In x i \/ In x j.
Proof.
  unfold union_index. rewrite sorted_labels_In, in_app_iff. split.
  - intros [H|H]; [left|right; apply unmatched_In in H]; assumption.
  - intros [H|H]; [left; assumption|].
    destruct (unmatched_other x i j H); [left|right]; assumption.
Qed.




Lemma frame_index_rows_of (idx : list timestamp) (a b : list pyfloat) :
  List.length a = List.length idx -> List.length b = List.length idx ->
  frame_index (rows_of idx a b) = idx.
Proof.
  unfold frame_index, rows_of. rewrite map_map. simpl.
  revert a b; induction idx as [|k idx IH]; intros [|x a] [|y b] Ha Hb;
    simpl in *; try discriminate; [reflexivity|].
  f_equal. apply IH; lia.
Qed.

Lemma rows_of_In (idx : list timestamp) (a b : list pyfloat) (r : row) :
  In r (rows_of idx a b) ->
  In (r_ts r, r_a r) (combine idx a) /\ In (r_ts r, r_b r) (combine idx b).
Proof.
  unfold rows_of.
  revert a b; induction idx as [|k idx IH]; intros [|x a] [|y b]; simpl;
    try contradiction.
  intros [<-|H]; simpl.
  - split; left; reflexivity.
  - destruct (IH _ _ H). split; right; assumption.
Qed.

Lemma frame_index_zip (s1 s2 : series) :
  index_of s1 = index_of s2 -> frame_index (zip_rows s1 s2) = index_of s1.
Proof.
  unfold frame_index, zip_rows, index_of. rewrite map_map. simpl.
  revert s2; induction s1 as [|[k v] s1 IH]; intros [|[k' v'] s2] H;
    simpl in *; try discriminate; [reflexivity|].
  injection H as -> H. f_equal. apply IH; assumption.
Qed.

Lemma zip_rows_In (s1 s2 : series) (r : row) :
  index_of s1 = index_of s2 -> In r (zip_rows s1 s2) ->
  In (r_ts r, r_a r) s1 /\ In (r_ts r, r_b r) s2.
Proof.
  unfold zip_rows, index_of.
  revert s2; induction s1 as [|[k v] s1 IH]; intros [|[k' v'] s2] H;
    simpl in *; try contradiction.
  injection H as -> H. intros [<-|Hr]; simpl.
  - split; left; reflexivity.
  - destruct (IH _ H Hr). split; right; assumption.
Qed.

Lemma index_eqb_eq (i j : list timestamp) : index_eqb i j = true <-> i = j.
Proof.
  unfold index_eqb. destruct (list_eq_dec Z.eq_dec i j); split;
    congruence.
Qed.

Lemma length_values_of (s : series) :
  List.length (values_of s) = List.length (index_of s).
Proof. unfold values_of, index_of. rewrite !length_map. reflexivity. Qed.

Lemma combine_index_values (s : series) :
  combine (index_of s) (values_of s) = s.
Proof.
  induction s as [|[k v] s IH]; simpl; [reflexivity|]. f_equal. exact IH.
Qed.

Lemma combine_map_In {A B} (g : A -> B) (l : list A) (x : A) (y : B) :
  In (x, y) (combine l (map g l)) -> y = g x.
Proof.
  induction l as [|k l IH]; simpl; [contradiction|].
  intros [[= <- <-]|H]; [reflexivity|apply IH; assumption].
Qed.

Lemma lookup_absent (ts : timestamp) (s : series) :
  ~ In ts (index_of s) -> lookup ts s = NaN.
Proof.
  induction s as [|[k v] s IH]; simpl; [reflexivity|].
  intros H. destruct (Z.eqb_spec k ts); [exfalso; apply H; left; assumption|].
  apply IH. intros H'. apply H. right; assumption.
Qed.

Lemma lookup_In (ts : timestamp) (s : series) :
  In ts (index_of s) -> In (ts, lookup ts s) s.
Proof.
  induction s as [|[k v] s IH]; simpl; [contradiction|].
  destruct (Z.eqb_spec k ts) as [->|Hk]; [left; reflexivity|].
  intros [H|H]; [contradiction|right; apply IH; assumption].
Qed.

Lemma reindex_length (target : list timestamp) (s : series) (v : list pyfloat) :
  reindex target s = Ok v -> List.length v = List.length target.
Proof.
  unfold reindex. destruct (index_eqb _ _) eqn:E.
  - apply index_eqb_eq in E. intros [= <-]. rewrite length_values_of, E.
    reflexivity.
  - destruct (has_duplicates _); [discriminate|]. intros [= <-].
    apply length_map.
Qed.

Lemma reindex_raises (target : list timestamp) (s : series) (x : exn) :
  reindex target s = Raise x -> x = duplicate_labels_error.
Proof.
  unfold reindex. destruct (index_eqb _ _); [discriminate|].
  destruct (has_duplicates _); [|discriminate]. intros [= <-]. reflexivity.
Qed.

(** One cell of a series laid out on a target index: the series' own value
    under that label, NaN where the series lacks the label. *)
Lemma reindex_cell (target : list timestamp) (s : series) (v : list pyfloat)
    (ts : timestamp) (x : pyfloat) :
  reindex target s = Ok v -> In (ts, x) (combine target v) ->
  (~ In ts (index_of s) -> x = NaN) /\ (In ts (index_of s) -> In (ts, x) s).
Proof.
  unfold reindex. destruct (index_eqb _ _) eqn:E.
  - apply index_eqb_eq in E. intros [= <-] H.
    rewrite <- E, combine_index_values in H. split; [|intros _; assumption].
    intros Hn. exfalso. apply Hn. apply in_map_iff. exists (ts, x). auto.
  - destruct (has_duplicates _); [discriminate|]. intros [= <-] H.
    apply combine_map_In in H. subst x. split.
    + apply lookup_absent.
    + apply lookup_In.
Qed.

(** The index of the aligned table, whichever way [concat] built it. *)
Lemma concat_index (s1 s2 : series) (f : frame) :
  concat s1 s2 = Ok f ->
  (index_of s1 = index_of s2 /\ frame_index f = index_of s1)
  \/ (index_of s1 <> index_of s2
      /\ frame_index f = union_index (index_of s1) (index_of s2)).
Proof.
  unfold concat. destruct (index_eqb _ _) eqn:E.
  - apply index_eqb_eq in E. intros [= <-]. left. split; [assumption|].
    apply frame_index_zip; assumption.
  - destruct (reindex _ s1) as [a|] eqn:R1; [|discriminate].
    destruct (reindex _ s2) as [b|] eqn:R2; [|discriminate].
    intros [= <-]. right. split.
    + intros H. apply index_eqb_eq in H. congruence.
    + apply frame_index_rows_of; eapply reindex_length; eassumption.
Qed.

(** Every date of either series is a row of the table, and nothing else. *)
Lemma concat_outer_join (s1 s2 : series) (f : frame) :
  concat s1 s2 = Ok f ->
  forall ts, In ts (frame_index f) <-> In ts (index_of s1) \/ In ts (index_of s2).
Proof.
  intros H ts. destruct (concat_index _ _ _ H) as [[E ->]|[_ ->]].
  - rewrite <- E. tauto.
  - apply union_index_In.
Qed.

(** A cell of the table is the value its series holds under the row's date;
    a date the series lacks is a gap in its column. *)
Lemma concat_cells (s1 s2 : series) (f : frame) (r : row) :
  concat s1 s2 = Ok f -> In r f ->
  ((~ In (r_ts r) (index_of s1) -> r_a r = NaN)
   /\ (In (r_ts r) (index_of s1) -> In (r_ts r, r_a r) s1))
  /\ ((~ In (r_ts r) (index_of s2) -> r_b r = NaN)
      /\ (In (r_ts r) (index_of s2) -> In (r_ts r, r_b r) s2)).
Proof.
  unfold concat. destruct (index_eqb _ _) eqn:E.
  - apply index_eqb_eq in E. intros [= <-] Hr.
    destruct (zip_rows_In _ _ _ E Hr) as [Ha Hb].
    assert (In (r_ts r) (index_of s1))
      by (apply in_map_iff; exists (r_ts r, r_a r); auto).
    assert (In (r_ts r) (index_of s2))
      by (apply in_map_iff; exists (r_ts r, r_b r); auto).
    tauto.
  - destruct (reindex _ s1) as [a|] eqn:R1; [|discriminate].
    destruct (reindex _ s2) as [b|] eqn:R2; [|discriminate].
    intros [= <-] Hr. apply rows_of_In in Hr. destruct Hr as [Ha Hb].
    split; eapply reindex_cell; eassumption.
Qed.

(** A date one series lacks is a gap in that series' column. *)
Lemma concat_gaps (s1 s2 : series) (f : frame) (r : row) :
  concat s1 s2 = Ok f -> In r f ->
  (~ In (r_ts r) (index_of s1) -> r_a r = NaN)
  /\ (~ In (r_ts r) (index_of s2) -> r_b r = NaN).
Proof.
  intros H Hr. destruct (concat_cells _ _ _ _ H Hr) as [[Ha _] [Hb _]].
  split; assumption.
Qed.

(** ** [pct_change] *)

Lemma length_frame_index (f : frame) : List.length (frame_index f) = List.length f.
Proof. apply length_map. Qed.

Lemma change_no_previous (x : pyfloat) : change x NaN = NaN.
Proof. destruct x; reflexivity. Qed.

Lemma change_reals (x p : R) :
  (p <> 0)%R -> change (Fin x) (Fin p) = Fin (x / p - 1).
Proof.
  intros H. unfold change. rewrite NpFacts.fdiv_reals by assumption. reflexivity.
Qed.

Lemma frame_index_ffill_from (la lb : pyfloat) (f : frame) :
  frame_index (ffill_from la lb f) = frame_index f.
Proof.
  revert la lb; induction f as [|r f IH]; intros la lb; simpl; [reflexivity|].
  f_equal. apply IH.
Qed.

Lemma frame_index_pct_from (pa pb : pyfloat) (f : frame) :
  frame_index (pct_from pa pb f) = frame_index f.
Proof.
  revert pa pb; induction f as [|r f IH]; intros pa pb; simpl; [reflexivity|].
  f_equal. apply IH.
Qed.

Lemma frame_index_pct_change (pad : bool) (f : frame) :
  frame_index (pct_change pad f) = frame_index f.
Proof.
  unfold pct_change, ffill. rewrite frame_index_pct_from.
  destruct pad; [apply frame_index_ffill_from|reflexivity].
Qed.

Lemma length_pct_change (pad : bool) (f : frame) :
  List.length (pct_change pad f) = List.length f.
Proof.
  rewrite <- !length_frame_index, frame_index_pct_change. reflexivity.
Qed.

(** The first row of a frame has no row above it: both its changes are
    NaN. *)
Lemma pct_change_first (pad : bool) (f : frame) :
  match pct_change pad f with
  | [] => f = []
  | r :: _ => r_a r = NaN /\ r_b r = NaN
  end.
Proof.
  unfold pct_change, ffill. destruct f as [|r f]; [destruct pad; reflexivity|].
  destruct pad; simpl; split; apply change_no_previous.
Qed.

(** Cell by cell: from the second row on, a change is the value over the
    one above it, less one. *)
Lemma pct_from_cell (pa pb : pyfloat) (f : frame) (i : nat) :
  (S i < List.length f)%nat ->
  cell_a (pct_from pa pb f) (S i) = change (cell_a f (S i)) (cell_a f i)
  /\ cell_b (pct_from pa pb f) (S i) = change (cell_b f (S i)) (cell_b f i).
Proof.
  revert pa pb i; induction f as [|r f IH]; intros pa pb i H;
    [simpl in H; lia|].
  destruct f as [|r' f']; [simpl in H; lia|].
  destruct i as [|i].
  - split; reflexivity.
  - simpl in H.
    destruct (IH (r_a r) (r_b r) i) as [Ea Eb]; [simpl; lia|].
    split; [exact Ea|exact Eb].
Qed.

Lemma pct_change_cell (pad : bool) (f : frame) (i : nat) :
  (S i < List.length f)%nat ->
  let filled := if pad then ffill f else f in
  cell_a (pct_change pad f) (S i)
  = fsub (fdiv (cell_a filled (S i)) (cell_a filled i)) (Fin 1)
  /\ cell_b (pct_change pad f) (S i)
     = fsub (fdiv (cell_b filled (S i)) (cell_b filled i)) (Fin 1).
Proof.
  intros H filled. unfold pct_change. fold filled.
  apply (pct_from_cell NaN NaN filled i).
  unfold filled. destruct pad; [|assumption].
  rewrite <- length_frame_index. unfold ffill.
  rewrite frame_index_ffill_from, length_frame_index. assumption.
Qed.

Lemma pct_change_first_cell (pad : bool) (f : frame) :
  cell_a (pct_change pad f) 0 = NaN /\ cell_b (pct_change pad f) 0 = NaN.
Proof.
  pose proof (pct_change_first pad f) as H. unfold cell_a, cell_b.
  destruct (pct_change pad f) as [|r g]; simpl; [split; reflexivity|exact H].
Qed.

(** A filled cell is the cell itself, or, for a gap, the filled cell above
    it. *)
Lemma ffill_from_cell (la lb : pyfloat) (f : frame) (i : nat) :
  (i < List.length f)%nat ->
  cell_a (ffill_from la lb f) i
  = (if isna (cell_a f i)
     then match i with O => la | S j => cell_a (ffill_from la lb f) j end
     else cell_a f i)
  /\ cell_b (ffill_from la lb f) i
     = (if isna (cell_b f i)
        then match i with O => lb | S j => cell_b (ffill_from la lb f) j end
        else cell_b f i).
Proof.
  revert la lb i; induction f as [|r f IH]; intros la lb i H;
    [simpl in H; lia|].
  destruct i as [|i].
  - unfold cell_a, cell_b. simpl.
    destruct (isna (r_a r)), (isna (r_b r)); split; reflexivity.
  - simpl in H. assert (Hi : (i < List.length f)%nat) by lia.
    pose proof (IH (if isna (r_a r) then la else r_a r)
                   (if isna (r_b r) then lb else r_b r) i Hi) as [Ea Eb].
    change (cell_a (ffill_from la lb (r :: f)) (S i))
      with (cell_a (ffill_from (if isna (r_a r) then la else r_a r)
                               (if isna (r_b r) then lb else r_b r) f) i).
    change (cell_b (ffill_from la lb (r :: f)) (S i))
      with (cell_b (ffill_from (if isna (r_a r) then la else r_a r)
                               (if isna (r_b r) then lb else r_b r) f) i).
    change (cell_a (r :: f) (S i)) with (cell_a f i).
    change (cell_b (r :: f) (S i)) with (cell_b f i).
    rewrite Ea, Eb. destruct i as [|i]; split; reflexivity.
Qed.

Lemma ffill_cell (f : frame) (i : nat) :
  (i < List.length f)%nat ->
  cell_a (ffill f) i
  = (if isna (cell_a f i)
     then match i with O => NaN | S j => cell_a (ffill f) j end
     else cell_a f i)
  /\ cell_b (ffill f) i
     = (if isna (cell_b f i)
        then match i with O => NaN | S j => cell_b (ffill f) j end
        else cell_b f i).
Proof. apply ffill_from_cell. Qed.

(** ** [dropna] *)

(** The rows kept are exactly the rows without a NaN. *)
Lemma dropna_iff (f : frame) (r : row) :
  In r (dropna f) <-> In r f /\ isna (r_a r) = false /\ isna (r_b r) = false.
Proof.
  unfold dropna. rewrite filter_In. unfold row_complete, notna.
  rewrite andb_true_iff, !negb_true_iff. tauto.
Qed.

Lemma dropna_complete (f : frame) (r : row) :
  In r (dropna f) -> isna (r_a r) = false /\ isna (r_b r) = false.
Proof.
  unfold dropna. rewrite filter_In. intros [_ H].
  unfold row_complete, notna in H. apply andb_true_iff in H.
  destruct H as [Ha Hb]. apply negb_true_iff in Ha, Hb. tauto.
Qed.

Lemma dropna_In (f : frame) (r : row) : In r (dropna f) -> In r f.
Proof. unfold dropna. rewrite filter_In. tauto. Qed.

(** At least the first row of the table is lost between the table and the
    returns. *)
Lemma returns_lose_first (pad : bool) (f : frame) :
  f <> [] ->
  (List.length (dropna (pct_change pad f)) + 1 <= List.length f)%nat.
Proof.
  intros Hne. rewrite <- (length_pct_change pad f).
  pose proof (pct_change_first pad f) as H.
  destruct (pct_change pad f) as [|r g]; [contradiction|].
  destruct H as [Ha _]. unfold dropna. simpl.
  unfold row_complete at 1. rewrite Ha. simpl.
  pose proof (filter_length_le row_complete g). lia.
Qed.

Lemma returns_of_empty (pad : bool) : dropna (pct_change pad []) = [].
Proof. destruct pad; reflexivity. Qed.

(** Both columns of any frame are series over the same index. *)
Lemma columns_share_index (f : frame) :
  index_of (column_a f) = frame_index f /\ index_of (column_b f) = frame_index f.
Proof.
  unfold index_of, column_a, column_b, frame_index. rewrite !map_map. split; reflexivity.
Qed.



Lemma returns_index_In (pad : bool) (f : frame) (r : row) :
  In r (dropna (pct_change pad f)) -> In (r_ts r) (frame_index f).
Proof.
  intros H. apply dropna_In in H.
  rewrite <- (frame_index_pct_change pad f). apply in_map; assumption.
Qed.





(** ** The statistics see every row of a complete frame *)

Lemma valid_pairs_complete (f : frame) :
  (forall r, In r f -> isna (r_a r) = false /\ isna (r_b r) = false) ->
  valid_pairs (column_a f) (column_b f) = map (fun r => (r_a r, r_b r)) f.
Proof.
  unfold valid_pairs, values_of, column_a, column_b. rewrite !map_map. simpl.
  induction f as [|r f IH]; intros H; [reflexivity|].
  simpl. destruct (H r (or_introl eq_refl)) as [Ha Hb].
  unfold notna. rewrite Ha, Hb. simpl. f_equal.
  apply IH. intros r' Hr'. apply H. right; assumption.
Qed.

(** ** Without forward fill, a gap in the table is a gap in the returns *)

Lemma change_of_gap (p : pyfloat) : change NaN p = NaN.
Proof. reflexivity. Qed.

Lemma pct_from_rows (pa pb : pyfloat) (f : frame) (x : row) :
  In x (pct_from pa pb f) ->
  exists y qa qb, In y f /\ r_ts x = r_ts y
                  /\ r_a x = change (r_a y) qa /\ r_b x = change (r_b y) qb.
Proof.
  revert pa pb; induction f as [|y f IH]; intros pa pb H; [contradiction|].
  destruct H as [<-|H].
  - exists y, pa, pb. simpl. auto.
  - destruct (IH _ _ H) as (y' & qa & qb & Hy & Hrest).
    exists y', qa, qb. split; [right; assumption|assumption].
Qed.

Lemma returns_no_fill_inner (s1 s2 : series) (f : frame) (x : row) :
  concat s1 s2 = Ok f ->
  In x (dropna (pct_change false f)) ->
  In (r_ts x) (index_of s1) /\ In (r_ts x) (index_of s2).
Proof.
  intros Hc Hx. pose proof (dropna_complete _ _ Hx) as [Hna Hnb].
  apply dropna_In in Hx. unfold pct_change in Hx.
  apply pct_from_rows in Hx.
  destruct Hx as (y & qa & qb & Hy & Ets & Ea & Eb).
  destruct (concat_gaps _ _ _ y Hc Hy) as [Ga Gb].
  rewrite Ets. split.
  - destruct (in_dec Z.eq_dec (r_ts y) (index_of s1)) as [H|H]; [assumption|].
    rewrite Ea, (Ga H) in Hna. discriminate.
  - destruct (in_dec Z.eq_dec (r_ts y) (index_of s2)) as [H|H]; [assumption|].
    rewrite Eb, (Gb H) in Hnb. discriminate.
Qed.

(** ** The index of a fetched column *)








End PdFacts.

(* ================================================================== *)
(** * Facts about the calculator *)
(* ================================================================== *)

Module CalculatorFacts.

Import Py Np Pd CorrelationCalculator NpFacts PdFacts.
Open Scope string_scope.
Open Scope Z_scope.

(** ** [fetch_stock_data] *)

Lemma fetch_stock_data_eq (w : world) (t : string) (a b : pytime) (l : log) :
  fetch_stock_data w t a b l =
  (match yf_download w t a b with
   | Downloaded d =>
       if lacks_data d then Raise (fetch_error t (no_data_msg t))
       else Ok (getitem d "Adj Close")
   | DownloadRaises e => Raise (fetch_error t (str e))
   end,
   (l ++ [Call t a b])%list).
Proof.
  unfold fetch_stock_data, try_except, bind, download, lacks_data.
  destruct (yf_download w t a b) as [d|e]; [|reflexivity].
  destruct (df_empty d || negb (has_column "Adj Close" d)); reflexivity.
Qed.

Lemma fetch_stock_data_fetched (w : world) (t : string) (a b : pytime) (l : log) :
  fetch_stock_data w t a b l = (fetched w t a b, (l ++ [Call t a b])%list).
Proof.
  unfold fetched. rewrite !fetch_stock_data_eq. reflexivity.
Qed.

Lemma fetched_eq (w : world) (t : string) (a b : pytime) :
  fetched w t a b =
  match yf_download w t a b with
  | Downloaded d =>
      if lacks_data d then Raise (fetch_error t (no_data_msg t))
      else Ok (getitem d "Adj Close")
  | DownloadRaises e => Raise (fetch_error t (str e))
  end.
Proof. unfold fetched. rewrite fetch_stock_data_eq. reflexivity. Qed.

(** ** The body of [calculate], step by step *)

(** The statistics step, for a frame labelled [t1], [t2]. *)
Lemma frame_statistics (t1 t2 : string) (f : frame) :
  (t1 = t2
   /\ frame_getitem t1 t2 f t1 = Ok (Columns f)
   /\ frame_getitem t1 t2 f t2 = Ok (Columns f))
  \/ (t1 <> t2
      /\ frame_getitem t1 t2 f t1 = Ok (Column (column_a f))
      /\ frame_getitem t1 t2 f t2 = Ok (Column (column_b f))).
Proof.
  unfold frame_getitem. rewrite !String.eqb_refl.
  destruct (String.eqb_spec t1 t2) as [E|E].
  - left. subst. rewrite String.eqb_refl. auto.
  - right. destruct (String.eqb_spec t2 t1); [congruence|auto].
Qed.

(** Steps 4 to 8, run in the monad, are [analyse]. *)
Lemma pipeline_tail (pad : bool) (t1 t2 : string) (sv ev : pytime)
    (s1 s2 : series) (l : log) :
  (combined_data <- lift (concat s1 s2) ;;
   let returns := dropna (pct_change pad combined_data) in
   if (len returns <? 2)%Z then raise (Exn ValueError insufficient_msg)
   else
     x <- lift (frame_getitem t1 t2 returns t1) ;;
     y <- lift (frame_getitem t1 t2 returns t2) ;;
     correlation <- lift (selection_corr x y) ;;
     x' <- lift (frame_getitem t1 t2 returns t1) ;;
     y' <- lift (frame_getitem t1 t2 returns t2) ;;
     covariance <- lift (selection_cov x' y') ;;
     if isna correlation || isna covariance
     then raise (Exn ValueError nan_msg)
     else
       first_date <- lift (index_first returns) ;;
       last_date <- lift (index_last returns) ;;
       ret {| correlation := pyround correlation 4;
              covariance := pyround covariance 6;
              start_date := sv;
              end_date := ev;
              ticker1 := t1;
              ticker2 := t2;
              data_points := len returns;
              first_date := strftime_Ymd first_date;
              last_date := strftime_Ymd last_date;
              trading_days := len combined_data |})%py l
  = (analyse pad t1 t2 sv ev s1 s2, l).
Proof.
  unfold analyse, bind, lift, raise, ret.
  destruct (concat s1 s2) as [combined|x]; [|reflexivity]. cbv zeta.
  destruct (len _ <? 2); [reflexivity|].
  destruct (frame_statistics t1 t2 (dropna (pct_change pad combined)))
    as [(E & -> & ->)|(E & -> & ->)].
  - apply String.eqb_eq in E. rewrite E. reflexivity.
  - apply String.eqb_neq in E. rewrite E. simpl.
    destruct (isna _ || isna _); [reflexivity|].
    destruct (dropna (pct_change pad combined)); reflexivity.
Qed.

Lemma pipeline_eq (w : world) (t1 t2 : string) (s e : option pytime) (l : log) :
  pipeline w t1 t2 s e l =
  match resolved_start w s e with
  | Raise x => (Raise x, l)
  | Ok a =>
      let b := resolved_end w e in
      match fetched w t1 a b with
      | Raise x => (Raise x, (l ++ [Call t1 a b])%list)
      | Ok s1 =>
          match fetched w t2 a b with
          | Raise x => (Raise x, (l ++ [Call t1 a b; Call t2 a b])%list)
          | Ok s2 =>
              (analyse (pad_default w) t1 t2 (date_val a) (date_val b) s1 s2,
               (l ++ [Call t1 a b; Call t2 a b])%list)
          end
      end
  end.
Proof.
  assert (Hfetch : forall a b,
    (stock1_data <- fetch_stock_data w t1 a b ;;
     stock2_data <- fetch_stock_data w t2 a b ;;
     combined_data <- lift (concat stock1_data stock2_data) ;;
     let returns := dropna (pct_change (pad_default w) combined_data) in
     if (len returns <? 2)%Z then raise (Exn ValueError insufficient_msg)
     else
       x <- lift (frame_getitem t1 t2 returns t1) ;;
       y <- lift (frame_getitem t1 t2 returns t2) ;;
       correlation <- lift (selection_corr x y) ;;
       x' <- lift (frame_getitem t1 t2 returns t1) ;;
       y' <- lift (frame_getitem t1 t2 returns t2) ;;
       covariance <- lift (selection_cov x' y') ;;
       if isna correlation || isna covariance
       then raise (Exn ValueError nan_msg)
       else
         first_date <- lift (index_first returns) ;;
         last_date <- lift (index_last returns) ;;
         ret {| correlation := pyround correlation 4;
                covariance := pyround covariance 6;
                start_date := date_val a;
                end_date := date_val b;
                ticker1 := t1;
                ticker2 := t2;
                data_points := len returns;
                first_date := strftime_Ymd first_date;
                last_date := strftime_Ymd last_date;
                trading_days := len combined_data |})%py l
    = match fetched w t1 a b with
      | Raise x => (Raise x, (l ++ [Call t1 a b])%list)
      | Ok s1 =>
          match fetched w t2 a b with
          | Raise x => (Raise x, (l ++ [Call t1 a b; Call t2 a b])%list)
          | Ok s2 =>
              (analyse (pad_default w) t1 t2 (date_val a) (date_val b) s1 s2,
               (l ++ [Call t1 a b; Call t2 a b])%list)
          end
      end).
  { intros a b. unfold bind at 1. rewrite fetch_stock_data_fetched.
    destruct (fetched w t1 a b) as [s1|x]; [|reflexivity].
    unfold bind at 1. rewrite fetch_stock_data_fetched, <- app_assoc. simpl app.
    destruct (fetched w t2 a b) as [s2|x]; [|reflexivity].
    apply pipeline_tail. }
  unfold pipeline, resolved_start. fold (resolved_end w e).
  destruct s as [a|].
  - unfold bind at 1, ret. apply Hfetch.
  - unfold bind at 1, lift.
    destruct (sub_days (resolved_end w e) 365) as [a|x]; [|reflexivity].
    apply Hfetch.
Qed.

Lemma calculate_eq (w : world) (t1 t2 : string) (s e : option pytime) (l : log) :
  calculate w t1 t2 s e l =
  match pipeline w t1 t2 s e l with
  | (Ok r, l') => (Ok r, l')
  | (Raise x, l') => (Raise (calculation_error x), l')
  end.
Proof. reflexivity. Qed.

Lemma analyse_eq (pad : bool) (t1 t2 : string) (sv ev : pytime)
    (s1 s2 : series) (combined : frame) :
  concat s1 s2 = Ok combined ->
  let returns := dropna (pct_change pad combined) in
  analyse pad t1 t2 sv ev s1 s2 =
  if len returns <? 2 then Raise (Exn ValueError insufficient_msg)
  else if String.eqb t1 t2 then Raise ambiguous_truth_error
  else if isna (series_corr (column_a returns) (column_b returns))
          || isna (series_cov (column_a returns) (column_b returns))
  then Raise (Exn ValueError nan_msg)
  else match returns with
       | [] => Raise out_of_bounds_error
       | r :: rest =>
           Ok (assembled t1 t2 sv ev combined returns (r_ts r) (r_ts (last rest r)))
       end.
Proof.
  intros Hc returns. unfold analyse. rewrite Hc. reflexivity.
Qed.

Lemma len_nonneg (f : frame) : 0 <= len f.
Proof. unfold len. lia. Qed.

(** Everything a successful call went through. *)
Lemma calculate_success (w : world) (t1 t2 : string) (s e : option pytime)
    (l l' : log) (r : result) :
  calculate w t1 t2 s e l = (Ok r, l') ->
  exists a b s1 s2 combined first rest,
    aligned w t1 t2 s e a b s1 s2 combined
    /\ l' = (l ++ [Call t1 a b; Call t2 a b])%list
    /\ returns_of w combined = first :: rest
    /\ 2 <= len (returns_of w combined)
    /\ t1 <> t2
    /\ isna (series_corr (column_a (returns_of w combined))
                         (column_b (returns_of w combined))) = false
    /\ isna (series_cov (column_a (returns_of w combined))
                        (column_b (returns_of w combined))) = false
    /\ r = assembled t1 t2 (date_val a) (date_val b) combined
                     (returns_of w combined) (r_ts first) (r_ts (last rest first)).
Proof.
  rewrite calculate_eq, pipeline_eq.
  destruct (resolved_start w s e) as [a|x] eqn:Ea; [|discriminate].
  cbv zeta.
  destruct (fetched w t1 a _) as [s1|x] eqn:E1; [|discriminate].
  destruct (fetched w t2 a _) as [s2|x] eqn:E2; [|discriminate].
  destruct (concat s1 s2) as [combined|x] eqn:Ec.
  2:{ unfold analyse. rewrite Ec. discriminate. }
  rewrite (analyse_eq _ _ _ _ _ _ _ _ Ec). cbv zeta.
  fold (returns_of w combined).
  destruct (len (returns_of w combined) <? 2) eqn:El; [discriminate|].
  destruct (String.eqb t1 t2) eqn:Et; [discriminate|].
  destruct (isna _ || isna _) eqn:En; [discriminate|].
  destruct (returns_of w combined) as [|first rest] eqn:Er; [discriminate|].
  intros [= <- <-].
  apply orb_false_iff in En. destruct En as [En1 En2].
  exists a, (resolved_end w e), s1, s2, combined, first, rest.
  repeat split; try assumption; try reflexivity; try (rewrite Er; assumption).
  - rewrite Er. apply Z.ltb_ge in El. assumption.
  - apply String.eqb_neq. assumption.
  - rewrite Er. reflexivity.
Qed.

(** The converse: a run that passes every check succeeds. *)
Lemma calculate_succeeds (w : world) (t1 t2 : string) (s e : option pytime)
    (l : log) (a b : pytime) (s1 s2 : series) (combined : frame) :
  aligned w t1 t2 s e a b s1 s2 combined ->
  2 <= len (returns_of w combined) ->
  t1 <> t2 ->
  isna (series_corr (column_a (returns_of w combined))
                    (column_b (returns_of w combined))) = false ->
  isna (series_cov (column_a (returns_of w combined))
                   (column_b (returns_of w combined))) = false ->
  exists first rest,
    returns_of w combined = first :: rest
    /\ calculate w t1 t2 s e l =
       (Ok (assembled t1 t2 (date_val a) (date_val b) combined
                      (returns_of w combined) (r_ts first) (r_ts (last rest first))),
        (l ++ [Call t1 a b; Call t2 a b])%list).
Proof.
  intros (Ha & Hb & H1 & H2 & Hc) Hlen Ht Hn1 Hn2.
  rewrite calculate_eq, pipeline_eq, Ha. cbv zeta. rewrite Hb, H1, H2.
  rewrite (analyse_eq _ _ _ _ _ _ _ _ Hc). cbv zeta.
  fold (returns_of w combined).
  apply Z.ltb_ge in Hlen. rewrite Hlen.
  apply String.eqb_neq in Ht. rewrite Ht.
  rewrite Hn1, Hn2. simpl.
  destruct (returns_of w combined) as [|first rest] eqn:Er.
  - apply Z.ltb_ge in Hlen. unfold len in Hlen. simpl in Hlen. lia.
  - exists first, rest. split; reflexivity.
Qed.

(** What [calculate] yields, case by case. *)
Lemma calculate_outcome (w : world) (t1 t2 : string) (s e : option pytime) (l : log) :
  fst (calculate w t1 t2 s e l) =
  match resolved_start w s e with
  | Raise x => Raise (calculation_error x)
  | Ok a =>
      let b := resolved_end w e in
      match fetched w t1 a b with
      | Raise x => Raise (calculation_error x)
      | Ok s1 =>
          match fetched w t2 a b with
          | Raise x => Raise (calculation_error x)
          | Ok s2 =>
              match concat s1 s2 with
              | Raise x => Raise (calculation_error x)
              | Ok combined =>
                  let returns := returns_of w combined in
                  if len returns <? 2 then Raise insufficient_data
                  else if String.eqb t1 t2
                  then Raise (calculation_error ambiguous_truth_error)
                  else if isna (series_corr (column_a returns) (column_b returns))
                          || isna (series_cov (column_a returns) (column_b returns))
                  then Raise nan_result
                  else match returns with
                       | [] => Raise (calculation_error out_of_bounds_error)
                       | first :: rest =>
                           Ok (assembled t1 t2 (date_val a) (date_val b) combined
                                         returns (r_ts first) (r_ts (last rest first)))
                       end
              end
          end
      end
  end.
Proof.
  rewrite calculate_eq, pipeline_eq.
  destruct (resolved_start w s e) as [a|x]; [|reflexivity]. cbv zeta.
  destruct (fetched w t1 a _) as [s1|x]; [|reflexivity].
  destruct (fetched w t2 a _) as [s2|x]; [|reflexivity].
  destruct (concat s1 s2) as [combined|x] eqn:Ec.
  2:{ unfold analyse. rewrite Ec. reflexivity. }
  rewrite (analyse_eq _ _ _ _ _ _ _ _ Ec). cbv zeta.
  fold (returns_of w combined).
  destruct (len (returns_of w combined) <? 2); [reflexivity|].
  destruct (String.eqb t1 t2); [reflexivity|].
  destruct (isna _ || isna _); [reflexivity|].
  destruct (returns_of w combined); reflexivity.
Qed.

Lemma aligned_functional (w : world) (t1 t2 : string) (s e : option pytime)
    (a b a' b' : pytime) (s1 s2 s1' s2' : series) (c c' : frame) :
  aligned w t1 t2 s e a b s1 s2 c ->
  aligned w t1 t2 s e a' b' s1' s2' c' ->
  a = a' /\ b = b' /\ s1 = s1' /\ s2 = s2' /\ c = c'.
Proof.
  intros (Ha & Hb & H1 & H2 & Hc) (Ha' & Hb' & H1' & H2' & Hc').
  assert (a = a') by congruence. assert (b = b') by congruence. subst a' b'.
  assert (s1 = s1') by congruence. assert (s2 = s2') by congruence. subst s1' s2'.
  assert (c = c') by congruence. auto.
Qed.

(** Which exceptions each step can raise. *)
Lemma resolved_start_raises (w : world) (s e : option pytime) (x : exn) :
  resolved_start w s e = Raise x -> x = Exn OverflowError "date value out of range".
Proof.
  unfold resolved_start, sub_days. destruct s; [discriminate|].
  destruct (_ <? 1); [|discriminate]. congruence.
Qed.

Lemma fetched_raises (w : world) (t : string) (a b : pytime) (x : exn) :
  fetched w t a b = Raise x -> exists detail, x = fetch_error t detail.
Proof.
  rewrite fetched_eq. destruct (yf_download w t a b) as [d|y].
  - destruct (lacks_data d); [|discriminate]. intros [= <-]. eexists; reflexivity.
  - intros [= <-]. eexists; reflexivity.
Qed.

Lemma concat_raises (s1 s2 : series) (x : exn) :
  concat s1 s2 = Raise x -> x = duplicate_labels_error.
Proof.
  unfold concat. destruct (index_eqb _ _); [discriminate|].
  destruct (reindex _ s1) as [a|e1] eqn:R1.
  - destruct (reindex _ s2) as [b|e2] eqn:R2; [discriminate|].
    intros [= <-]. exact (reindex_raises _ _ _ R2).
  - intros [= <-]. exact (reindex_raises _ _ _ R1).
Qed.

Lemma calculation_error_inj (x y : exn) :
  calculation_error x = calculation_error y -> str x = str y.
Proof. unfold calculation_error. simpl. intros [= H]. exact H. Qed.

(** ** The statistics over cleaned returns *)

Lemma series_corr_complete (f : frame) :
  f <> [] ->
  (forall r, In r f -> isna (r_a r) = false /\ isna (r_b r) = false) ->
  series_corr (column_a f) (column_b f) = np_corrcoef (map r_a f) (map r_b f).
Proof.
  intros Hne Hc. unfold series_corr. rewrite (valid_pairs_complete f Hc).
  rewrite !map_map. simpl.
  destruct f; [congruence|reflexivity].
Qed.

Lemma constant_as_repeat {A B} (g : A -> B) (c : B) (l : list A) :
  Forall (fun x => g x = c) l -> map g l = repeat c (List.length l).
Proof.
  induction 1 as [|x l Hx _ IH]; [reflexivity|].
  simpl. rewrite Hx, IH. reflexivity.
Qed.

Lemma len_ge_2 (f : frame) : 2 <= len f -> (2 <= List.length f)%nat /\ f <> [].
Proof.
  unfold len. intros H. split; [lia|]. intros ->. simpl in H. lia.
Qed.

(** A column of zero returns, a series without variance, leaves the
    correlation undefined. *)
Lemma zero_variance_corr (w : world) (combined : frame) :
  2 <= len (returns_of w combined) ->
  Forall (fun r => r_a r = Fin 0) (returns_of w combined)
  \/ Forall (fun r => r_b r = Fin 0) (returns_of w combined) ->
  series_corr (column_a (returns_of w combined))
              (column_b (returns_of w combined)) = NaN.
Proof.
  intros Hlen Hconst. destruct (len_ge_2 _ Hlen) as [Hn Hne].
  rewrite series_corr_complete; [|assumption|apply dropna_complete].
  destruct Hconst as [H|H]; rewrite (constant_as_repeat _ _ _ H).
  - apply np_corrcoef_constant_l; assumption.
  - apply np_corrcoef_constant_r; [assumption|rewrite length_map; assumption].
Qed.


Lemma date_val_ordinal (x : pytime) : date_val x = PyDate (ordinal_of x).
Proof. destruct x; reflexivity. Qed.

Lemma sub_days_ok (t a : pytime) (n : Z) :
  sub_days t n = Ok a ->
  ordinal_of a = ordinal_of t - n
  /\ instant a = instant t - n * us_per_day
  /\ is_datetime a = is_datetime t.
Proof.
  unfold sub_days. destruct (ordinal_of t - n <? 1); [discriminate|].
  intros [= <-]. destruct t; simpl; repeat split; lia.
Qed.

End CalculatorFacts.


Module FixtureFacts.
Import Py Np Pd CorrelationCalculator NpFacts PdFacts CalculatorFacts Fixtures.
Open Scope string_scope.
Open Scope Z_scope.


Lemma aaa_bbb_aligned :
  aligned market "AAA" "BBB" (Some from) (Some upto) from upto
          (getitem aaa "Adj Close") (getitem bbb "Adj Close") aaa_bbb.
Proof. repeat split. Qed.

Ltac evaluate_returns :=
  unfold returns_of, pct_change, dropna; cbn -[change day];
  rewrite ?change_no_previous, ?change_reals by lra;
  cbn -[day].

Lemma aaa_bbb_returns : returns_of market aaa_bbb = aaa_bbb_rows.
Proof. unfold aaa_bbb. evaluate_returns. reflexivity. Qed.

Ltac evaluate_rcov :=
  unfold rcov, rdot, rdemean, rmean, rsum; simpl; lra.

Lemma aaa_bbb_corr :
  isna (series_corr (column_a aaa_bbb_rows) (column_b aaa_bbb_rows)) = false.
Proof.
  unfold series_corr, valid_pairs. cbn -[np_corrcoef].
  change (isna (np_corrcoef (map Fin [2 / 1 - 1; 6 / 2 - 1]%R)
                            (map Fin [2 / 4 - 1; 6 / 2 - 1]%R)) = false).
  apply np_corrcoef_notna; [simpl; lia|reflexivity| |];
    evaluate_rcov.
Qed.

Lemma aaa_bbb_cov :
  isna (series_cov (column_a aaa_bbb_rows) (column_b aaa_bbb_rows)) = false.
Proof.
  unfold series_cov, valid_pairs, np_cov. cbn -[cov_entry].
  change (isna (cov_entry (map Fin [2 / 1 - 1; 6 / 2 - 1]%R)
                          (map Fin [2 / 4 - 1; 6 / 2 - 1]%R)) = false).
  rewrite cov_entry_reals; [reflexivity|simpl; lia|reflexivity].
Qed.

Lemma aaa_bbb_run (s e : option pytime) (a b : pytime) (l : log) :
  resolved_start market s e = Ok a ->
  resolved_end market e = b ->
  calculate market "AAA" "BBB" s e l
  = (Ok (aaa_bbb_result a b), (l ++ [Call "AAA" a b; Call "BBB" a b])%list).
Proof.
  intros Ha Hb.
  assert (Hal : aligned market "AAA" "BBB" s e a b
                        (getitem aaa "Adj Close") (getitem bbb "Adj Close") aaa_bbb)
    by (repeat split; assumption).
  destruct (calculate_succeeds market "AAA" "BBB" s e l _ _ _ _ _ Hal)
    as (first & rest & Hr & ->).
  - rewrite aaa_bbb_returns. unfold len. simpl. lia.
  - discriminate.
  - rewrite aaa_bbb_returns. apply aaa_bbb_corr.
  - rewrite aaa_bbb_returns. apply aaa_bbb_cov.
  - rewrite aaa_bbb_returns in Hr |- *. injection Hr as <- <-. reflexivity.
Qed.

Lemma aaa_bbb_run_explicit :
  calculate market "AAA" "BBB" (Some from) (Some upto) []
  = (Ok (aaa_bbb_result from upto),
     [Call "AAA" from upto; Call "BBB" from upto]).
Proof. apply (aaa_bbb_run (Some from) (Some upto) from upto []); reflexivity. Qed.


Lemma aaa_new_aligned :
  aligned market "AAA" "NEW" (Some from) (Some upto) from upto
          (getitem aaa "Adj Close") (getitem newco "Adj Close") aaa_new.
Proof. repeat split. Qed.

Lemma aaa_new_returns :
  returns_of market aaa_new
  = [Row (day 739003) (Fin (6 / 2 - 1)) (Fin (4 / 3 - 1))].
Proof. unfold aaa_new. evaluate_returns. reflexivity. Qed.

Lemma flat_aaa_aligned :
  aligned market "FLAT" "AAA" (Some from) (Some upto) from upto
          (getitem flat "Adj Close") (getitem aaa "Adj Close") flat_aaa.
Proof. repeat split. Qed.

Lemma flat_aaa_returns :
  returns_of market flat_aaa
  = [Row (day 739002) (Fin (5 / 5 - 1)) (Fin (2 / 1 - 1));
     Row (day 739003) (Fin (5 / 5 - 1)) (Fin (6 / 2 - 1))].
Proof. unfold flat_aaa. evaluate_returns. reflexivity. Qed.


Lemma aaa_gap_aligned (w : world) :
  yf_download w = service ->
  aligned w "AAA" "GAP" (Some from) (Some upto) from upto
          (getitem aaa "Adj Close") (getitem gappy "Adj Close") aaa_gap.
Proof.
  intros H. unfold aligned, fetched, fetch_stock_data, try_except, bind, download.
  rewrite H. repeat split.
Qed.

(** With the forward fill of pandas before 3.0, the day GAP did not trade
    stays in the returns, with a change of zero for GAP. *)
Lemma aaa_gap_returns_fill :
  returns_of market aaa_gap
  = [Row (day 739002) (Fin (2 / 1 - 1)) (Fin (3 / 3 - 1));
     Row (day 739003) (Fin (6 / 2 - 1)) (Fin (4 / 3 - 1))].
Proof. unfold aaa_gap. evaluate_returns. reflexivity. Qed.

(** Without the fill, the gap takes out its own day and the next. *)
Lemma aaa_gap_returns_no_fill : returns_of market_no_fill aaa_gap = [].
Proof. unfold aaa_gap. evaluate_returns. reflexivity. Qed.

Lemma aaa_gap_corr :
  isna (series_corr (column_a aaa_gap_rows) (column_b aaa_gap_rows)) = false.
Proof.
  unfold series_corr, valid_pairs. cbn -[np_corrcoef].
  change (isna (np_corrcoef (map Fin [2 / 1 - 1; 6 / 2 - 1]%R)
                            (map Fin [3 / 3 - 1; 4 / 3 - 1]%R)) = false).
  apply np_corrcoef_notna; [simpl; lia|reflexivity| |];
    evaluate_rcov.
Qed.

Lemma aaa_gap_cov :
  isna (series_cov (column_a aaa_gap_rows) (column_b aaa_gap_rows)) = false.
Proof.
  unfold series_cov, valid_pairs, np_cov. cbn -[cov_entry].
  change (isna (cov_entry (map Fin [2 / 1 - 1; 6 / 2 - 1]%R)
                          (map Fin [3 / 3 - 1; 4 / 3 - 1]%R)) = false).
  rewrite cov_entry_reals; [reflexivity|simpl; lia|reflexivity].
Qed.

(** Under the forward fill the run of AAA against GAP succeeds, on two
    rows. *)
Lemma aaa_gap_run :
  calculate market "AAA" "GAP" (Some from) (Some upto) []
  = (Ok aaa_gap_result, [Call "AAA" from upto; Call "GAP" from upto]).
Proof.
  destruct (calculate_succeeds market "AAA" "GAP" (Some from) (Some upto) []
              _ _ _ _ _ (aaa_gap_aligned market eq_refl))
    as (first & rest & Hr & ->).
  - rewrite aaa_gap_returns_fill. unfold len. simpl. lia.
  - discriminate.
  - rewrite aaa_gap_returns_fill. apply aaa_gap_corr.
  - rewrite aaa_gap_returns_fill. apply aaa_gap_cov.
  - rewrite aaa_gap_returns_fill in Hr |- *. injection Hr as <- <-. reflexivity.
Qed.




End FixtureFacts.

(* ================================================================== *)
(** * The specification, claim by claim *)
(* ================================================================== *)

Module Claims.

Import Py Np Pd CorrelationCalculator NpFacts PdFacts CalculatorFacts.
Import Fixtures FixtureFacts.
Open Scope string_scope.
Open Scope Z_scope.

(** ** The fetcher *)

(** C10.  Whatever goes wrong inside [fetch_stock_data], the caller gets a
    [ValueError] whose message starts "Error fetching data for <ticker>: ".
    The function's own no-data error is caught by its own handler, so it
    comes out as that same kind, identical to a transport failure carrying
    the same text; by the time it leaves [calculate] it has been wrapped
    twice. *)
Theorem fetch_failures_one_kind (w : world) (t : string) (a b : pytime) (l : log) :
  (forall err l', fetch_stock_data w t a b l = (Raise err, l') ->
     exn_cls err = ValueError
     /\ exists detail,
          exn_msg err = "Error fetching data for " ++ t ++ ": " ++ detail)
  /\ (forall d, yf_download w t a b = Downloaded d -> lacks_data d = true ->
        fst (fetch_stock_data w t a b l)
        = Raise (Exn ValueError
                   ("Error fetching data for " ++ t ++ ": "
                    ++ "No data found for ticker " ++ t)))
  /\ (forall d x, yf_download w t a b = Downloaded d -> lacks_data d = true ->
        forall w', yf_download w' t a b = DownloadRaises x ->
        str x = "No data found for ticker " ++ t ->
        fetch_stock_data w' t a b l = fetch_stock_data w t a b l)
  /\ (forall d t2, yf_download w t a b = Downloaded d -> lacks_data d = true ->
        fst (calculate w t t2 (Some a) (Some b) l)
        = Raise (Exn ValueError
                   ("Calculation error: "
                    ++ "Error fetching data for " ++ t ++ ": "
                    ++ "No data found for ticker " ++ t))).
Proof.
  split; [|split; [|split]].
  - intros err l' H. rewrite fetch_stock_data_eq in H.
    destruct (yf_download w t a b) as [d|x].
    + destruct (lacks_data d); [|discriminate].
      injection H as <- _. split; [reflexivity|eexists; reflexivity].
    + injection H as <- _. split; [reflexivity|eexists; reflexivity].
  - intros d Hd Hl. rewrite fetch_stock_data_eq, Hd, Hl. reflexivity.
  - intros d x Hd Hl w' Hx Hs.
    rewrite !fetch_stock_data_eq, Hd, Hl, Hx, Hs. reflexivity.
  - intros d t2 Hd Hl. rewrite calculate_eq, pipeline_eq. simpl.
    rewrite fetched_eq, Hd, Hl. reflexivity.
Qed.

Lemma fetch_failures_one_kind_witness :
  fst (fetch_stock_data market "GONE" from upto [])
  = Raise (Exn ValueError
             "Error fetching data for GONE: No data found for ticker GONE")
  /\ fst (calculate market "GONE" "AAA" (Some from) (Some upto) [])
     = Raise (Exn ValueError
                "Calculation error: Error fetching data for GONE: No data found for ticker GONE").
Proof.
  pose proof (fetch_failures_one_kind market "GONE" from upto []) as (_ & H2 & _ & H4).
  split.
  - exact (H2 gone eq_refl eq_refl).
  - exact (H4 gone "AAA" eq_refl eq_refl).
Defined.

(** C6, as the code has it.  [fetch_stock_data] returns the adjusted-close
    column when the download has rows and that column.  It raises
    [ValueError] with "Error fetching data for <ticker>: No data found for
    ticker <ticker>" when rows or column are missing, and [ValueError] with
    "Error fetching data for <ticker>: " followed by the original message
    when the download itself raises.  Either way one request is logged. *)
Theorem fetch_stock_data_cases (w : world) (t : string) (a b : pytime) (l : log) :
  (forall d, yf_download w t a b = Downloaded d -> lacks_data d = false ->
     fetch_stock_data w t a b l
     = (Ok (getitem d "Adj Close"), (l ++ [Call t a b])%list))
  /\ (forall d, yf_download w t a b = Downloaded d -> lacks_data d = true ->
        fetch_stock_data w t a b l
        = (Raise (Exn ValueError
                    ("Error fetching data for " ++ t ++ ": "
                     ++ "No data found for ticker " ++ t)),
           (l ++ [Call t a b])%list))
  /\ (forall x, yf_download w t a b = DownloadRaises x ->
        fetch_stock_data w t a b l
        = (Raise (Exn ValueError
                    ("Error fetching data for " ++ t ++ ": " ++ str x)),
           (l ++ [Call t a b])%list)).
Proof.
  repeat split; intros.
  - rewrite fetch_stock_data_eq, H, H0; reflexivity.
  - rewrite fetch_stock_data_eq, H, H0; reflexivity.
  - rewrite fetch_stock_data_eq, H; reflexivity.
Qed.

Lemma fetch_stock_data_cases_witness :
  fetch_stock_data market "AAA" from upto []
  = (Ok (getitem aaa "Adj Close"), [Call "AAA" from upto])
  /\ fetch_stock_data market "RAW" from upto []
     = (Raise (Exn ValueError
                 "Error fetching data for RAW: No data found for ticker RAW"),
        [Call "RAW" from upto])
  /\ fetch_stock_data market "ZZZ" from upto []
     = (Raise (Exn ValueError
                 "Error fetching data for ZZZ: connection refused"),
        [Call "ZZZ" from upto]).
Proof.
  split; [|split].
  - exact (proj1 (fetch_stock_data_cases market "AAA" from upto [])
                 aaa eq_refl eq_refl).
  - exact (proj1 (proj2 (fetch_stock_data_cases market "RAW" from upto []))
                 raw eq_refl eq_refl).
  - exact (proj2 (proj2 (fetch_stock_data_cases market "ZZZ" from upto []))
                 refused eq_refl).
Defined.

(** C6, as stated, fails: a download without rows and a download that
    raises can leave [fetch_stock_data] as one and the same exception, so
    the two causes are not told apart by any kind of error. *)
Lemma fetch_no_data_is_fetch_error :
  yf_download market "GONE" from upto = Downloaded gone
  /\ lacks_data gone = true
  /\ yf_download outage "GONE" from upto
     = DownloadRaises (Exn (Other "ConnectionError") "No data found for ticker GONE")
  /\ fetch_stock_data market "GONE" from upto []
     = (Raise (Exn ValueError
                 "Error fetching data for GONE: No data found for ticker GONE"),
        [Call "GONE" from upto])
  /\ fetch_stock_data outage "GONE" from upto []
     = fetch_stock_data market "GONE" from upto [].
Proof. repeat split. Qed.

(** ** Errors of [calculate] *)

(** C2.  [calculate] either returns the complete result of its body or
    raises [ValueError] with "Calculation error: " followed by the text of
    whatever the body raised, the fetcher's errors included; there is no
    third way out and no result on failure. *)
Theorem calculate_errors_uniform (w : world) (t1 t2 : string)
    (s e : option pytime) (l : log) :
  (forall x l', pipeline w t1 t2 s e l = (Raise x, l') ->
     calculate w t1 t2 s e l
     = (Raise (Exn ValueError ("Calculation error: " ++ str x)), l'))
  /\ (forall r l', calculate w t1 t2 s e l = (Ok r, l') <->
                   pipeline w t1 t2 s e l = (Ok r, l'))
  /\ (forall a x, resolved_start w s e = Ok a ->
        fetched w t1 a (resolved_end w e) = Raise x ->
        fst (calculate w t1 t2 s e l)
        = Raise (Exn ValueError ("Calculation error: " ++ str x)))
  /\ (forall a s1 x, resolved_start w s e = Ok a ->
        fetched w t1 a (resolved_end w e) = Ok s1 ->
        fetched w t2 a (resolved_end w e) = Raise x ->
        fst (calculate w t1 t2 s e l)
        = Raise (Exn ValueError ("Calculation error: " ++ str x)))
  /\ (forall x l', calculate w t1 t2 s e l = (Raise x, l') ->
        exn_cls x = ValueError
        /\ exists cause l0,
             pipeline w t1 t2 s e l = (Raise cause, l0)
             /\ exn_msg x = "Calculation error: " ++ str cause).
Proof.
  split; [|split; [|split; [|split]]].
  - intros x l' H. rewrite calculate_eq, H. reflexivity.
  - intros r l'. rewrite calculate_eq.
    destruct (pipeline w t1 t2 s e l) as [[r0|x] l0]; split; congruence.
  - intros a x Ha H. rewrite calculate_eq, pipeline_eq, Ha. cbv zeta.
    rewrite H. reflexivity.
  - intros a s1 x Ha H1 H2. rewrite calculate_eq, pipeline_eq, Ha. cbv zeta.
    rewrite H1, H2. reflexivity.
  - intros x l'. rewrite calculate_eq.
    destruct (pipeline w t1 t2 s e l) as [[r0|c] l0]; [discriminate|].
    intros [= <- <-]. split; [reflexivity|]. exists c, l0. split; reflexivity.
Qed.

Lemma calculate_errors_uniform_witness :
  fst (calculate market "AAA" "ZZZ" (Some from) (Some upto) [])
  = Raise (Exn ValueError
             "Calculation error: Error fetching data for ZZZ: connection refused").
Proof.
  pose proof (calculate_errors_uniform market "AAA" "ZZZ" (Some from) (Some upto) [])
    as (_ & _ & _ & H & _).
  exact (H from (getitem aaa "Adj Close")
           (Exn ValueError "Error fetching data for ZZZ: connection refused")
           eq_refl eq_refl eq_refl).
Defined.

(** ** Dates *)

(** C3.  An absent end is the clock's reading, an absent start is that end
    moved back 365 days.  A result carries both reduced to their calendar
    dates, and the requests sent to the service, first for [t1] and then for
    [t2], carry them as they were, time of day included. *)
Theorem calculate_date_handling (w : world) (t1 t2 : string)
    (s e : option pytime) (l : log) :
  let b := match e with Some x => x | None => clock w end in
  (forall r l', calculate w t1 t2 s e l = (Ok r, l') ->
     exists a,
       match s with
       | Some x => a = x
       | None => ordinal_of a = ordinal_of b - 365
                 /\ instant a = instant b - 365 * us_per_day
                 /\ is_datetime a = is_datetime b
       end
       /\ start_date r = PyDate (ordinal_of a)
       /\ end_date r = PyDate (ordinal_of b)
       /\ l' = (l ++ [Call t1 a b; Call t2 a b])%list)
  /\ (forall o l', calculate w t1 t2 s e l = (o, l') ->
        exists calls,
          l' = (l ++ calls)%list
          /\ forall c, In c calls ->
               (call_ticker c = t1 \/ call_ticker c = t2)
               /\ resolved_start w s e = Ok (call_start c)
               /\ call_end c = b).
Proof.
  cbv zeta. fold (resolved_end w e). split.
  - intros r l' H. apply calculate_success in H.
    destruct H as (a & b & s1 & s2 & combined & first & rest
                   & (Ha & Hb & _) & Hl & _ & _ & _ & _ & _ & ->).
    subst b. exists a. split; [|split; [|split]].
    + unfold resolved_start in Ha. destruct s as [x|].
      * congruence.
      * apply sub_days_ok in Ha. exact Ha.
    + simpl. apply date_val_ordinal.
    + simpl. apply date_val_ordinal.
    + exact Hl.
  - intros o l'. rewrite calculate_eq, pipeline_eq.
    destruct (resolved_start w s e) as [a|x] eqn:Ea.
    2:{ intros [= <- <-]. exists []. split; [symmetry; apply app_nil_r|].
        intros c []. }
    cbv zeta.
    destruct (fetched w t1 a _) as [s1|x].
    2:{ intros [= <- <-]. eexists; split; [reflexivity|].
        intros c [<-|[]]. simpl. auto. }
    assert (Hboth : forall c,
               In c [Call t1 a (resolved_end w e); Call t2 a (resolved_end w e)] ->
               (call_ticker c = t1 \/ call_ticker c = t2)
               /\ Ok a = Ok (call_start c) /\ call_end c = resolved_end w e).
    { intros c [<-|[<-|[]]]; simpl; auto. }
    destruct (fetched w t2 a _) as [s2|x].
    2:{ intros [= <- <-]. eexists; split; [reflexivity|exact Hboth]. }
    destruct (analyse _ _ _ _ _ _ _); intros [= <- <-];
      (eexists; split; [reflexivity|exact Hboth]).
Qed.

Lemma calculate_date_handling_witness :
  exists a,
    (ordinal_of a = 739100 - 365
     /\ instant a = instant (PyDateTime 739100 43200000000) - 365 * us_per_day
     /\ is_datetime a = true)
    /\ start_date (aaa_bbb_result (PyDateTime 738735 43200000000)
                                  (PyDateTime 739100 43200000000))
       = PyDate (ordinal_of a)
    /\ end_date (aaa_bbb_result (PyDateTime 738735 43200000000)
                                (PyDateTime 739100 43200000000))
       = PyDate 739100
    /\ [Call "AAA" (PyDateTime 738735 43200000000) (PyDateTime 739100 43200000000);
        Call "BBB" (PyDateTime 738735 43200000000) (PyDateTime 739100 43200000000)]
       = ([] ++ [Call "AAA" a (PyDateTime 739100 43200000000);
                 Call "BBB" a (PyDateTime 739100 43200000000)])%list.
Proof.
  exact (proj1 (calculate_date_handling market "AAA" "BBB" None None []) _ _
           (aaa_bbb_run None None _ _ [] eq_refl eq_refl)).
Defined.

(** ** Too few observations *)

(** C4.  [calculate] raises the insufficient-data error exactly when it got
    as far as the returns and fewer than two rows were left; with two rows
    or more (of two different tickers) it goes on to the statistics and its
    outcome is theirs. *)
Theorem insufficient_data_iff (w : world) (t1 t2 : string)
    (s e : option pytime) (l : log) :
  (fst (calculate w t1 t2 s e l)
   = Raise (Exn ValueError
              "Calculation error: Insufficient data points for correlation calculation")
   <-> exists a b s1 s2 combined,
         aligned w t1 t2 s e a b s1 s2 combined
         /\ len (returns_of w combined) < 2)
  /\ (forall a b s1 s2 combined,
        aligned w t1 t2 s e a b s1 s2 combined ->
        2 <= len (returns_of w combined) ->
        t1 <> t2 ->
        exists first rest,
          returns_of w combined = first :: rest
          /\ fst (calculate w t1 t2 s e l)
             = if isna (series_corr (column_a (returns_of w combined))
                                    (column_b (returns_of w combined)))
                  || isna (series_cov (column_a (returns_of w combined))
                                      (column_b (returns_of w combined)))
               then Raise (Exn ValueError
                             "Calculation error: Calculation resulted in NaN values")
               else Ok (assembled t1 t2 (date_val a) (date_val b) combined
                                  (returns_of w combined)
                                  (r_ts first) (r_ts (last rest first)))).
Proof.
  split; [split|].
  - rewrite calculate_outcome.
    destruct (resolved_start w s e) as [a|x] eqn:Ea.
    2:{ apply resolved_start_raises in Ea. subst x. discriminate. }
    cbv zeta.
    destruct (fetched w t1 a _) as [s1|x] eqn:E1.
    2:{ apply fetched_raises in E1. destruct E1 as [d ->]. discriminate. }
    destruct (fetched w t2 a _) as [s2|x] eqn:E2.
    2:{ apply fetched_raises in E2. destruct E2 as [d ->]. discriminate. }
    destruct (concat s1 s2) as [combined|x] eqn:Ec.
    2:{ apply concat_raises in Ec. subst x. discriminate. }
    destruct (len (returns_of w combined) <? 2) eqn:El.
    + intros _. exists a, (resolved_end w e), s1, s2, combined.
      apply Z.ltb_lt in El. repeat split; assumption.
    + destruct (String.eqb t1 t2); [discriminate|].
      destruct (isna _ || isna _); [discriminate|].
      destruct (returns_of w combined); discriminate.
  - intros (a & b & s1 & s2 & combined & (Ha & Hb & H1 & H2 & Hc) & Hlen).
    rewrite calculate_outcome, Ha. cbv zeta. rewrite Hb, H1, H2, Hc.
    apply Z.ltb_lt in Hlen. rewrite Hlen. reflexivity.
  - intros a b s1 s2 combined (Ha & Hb & H1 & H2 & Hc) Hlen Ht.
    rewrite calculate_outcome, Ha. cbv zeta. rewrite Hb, H1, H2, Hc.
    destruct (returns_of w combined) as [|first rest] eqn:Er.
    { unfold len in Hlen. simpl in Hlen. lia. }
    exists first, rest. split; [reflexivity|].
    apply Z.ltb_ge in Hlen. rewrite Hlen.
    apply String.eqb_neq in Ht. rewrite Ht. reflexivity.
Qed.

Lemma insufficient_data_iff_witness :
  fst (calculate market "AAA" "NEW" (Some from) (Some upto) [])
  = Raise (Exn ValueError
             "Calculation error: Insufficient data points for correlation calculation").
Proof.
  apply (proj1 (insufficient_data_iff market "AAA" "NEW" (Some from) (Some upto) [])).
  exists from, upto, (getitem aaa "Adj Close"), (getitem newco "Adj Close"), aaa_new.
  split; [exact aaa_new_aligned|].
  rewrite aaa_new_returns. reflexivity.
Defined.

(** ** Undefined statistics *)

(** C5.  A result never carries a NaN correlation or covariance.  Once the
    statistics are computed over two or more cleaned rows, a NaN in either
    of them makes [calculate] raise the NaN error; and a return column
    that is zero throughout (a price that never moved, so a series without
    variance) is one way to get there. *)
Theorem nan_statistics_rejected (w : world) (t1 t2 : string)
    (s e : option pytime) (l : log) :
  (forall r l', calculate w t1 t2 s e l = (Ok r, l') ->
     isna (correlation r) = false /\ isna (covariance r) = false)
  /\ (forall a b s1 s2 combined,
        aligned w t1 t2 s e a b s1 s2 combined ->
        2 <= len (returns_of w combined) ->
        t1 <> t2 ->
        isna (series_corr (column_a (returns_of w combined))
                          (column_b (returns_of w combined))) = true
        \/ isna (series_cov (column_a (returns_of w combined))
                            (column_b (returns_of w combined))) = true ->
        fst (calculate w t1 t2 s e l)
        = Raise (Exn ValueError
                   "Calculation error: Calculation resulted in NaN values"))
  /\ (forall a b s1 s2 combined,
        aligned w t1 t2 s e a b s1 s2 combined ->
        2 <= len (returns_of w combined) ->
        t1 <> t2 ->
        Forall (fun r => r_a r = Fin 0) (returns_of w combined)
        \/ Forall (fun r => r_b r = Fin 0) (returns_of w combined) ->
        fst (calculate w t1 t2 s e l)
        = Raise (Exn ValueError
                   "Calculation error: Calculation resulted in NaN values")).
Proof.
  assert (Hnan : forall a b s1 s2 combined,
             aligned w t1 t2 s e a b s1 s2 combined ->
             2 <= len (returns_of w combined) ->
             t1 <> t2 ->
             isna (series_corr (column_a (returns_of w combined))
                               (column_b (returns_of w combined))) = true
             \/ isna (series_cov (column_a (returns_of w combined))
                                 (column_b (returns_of w combined))) = true ->
             fst (calculate w t1 t2 s e l) = Raise nan_result).
  { intros a b s1 s2 combined (Ha & Hb & H1 & H2 & Hc) Hlen Ht Hn.
    rewrite calculate_outcome, Ha. cbv zeta. rewrite Hb, H1, H2, Hc.
    apply Z.ltb_ge in Hlen. rewrite Hlen.
    apply String.eqb_neq in Ht. rewrite Ht.
    replace (isna _ || isna _) with true; [reflexivity|].
    symmetry. apply orb_true_iff. exact Hn. }
  split; [|split].
  - intros r l' H. apply calculate_success in H.
    destruct H as (a & b & s1 & s2 & combined & first & rest
                   & _ & _ & _ & _ & _ & Hn1 & Hn2 & ->).
    simpl. rewrite !isna_pyround. split; assumption.
  - exact Hnan.
  - intros a b s1 s2 combined Hal Hlen Ht Hconst.
    apply (Hnan a b s1 s2 combined Hal Hlen Ht).
    left. rewrite (zero_variance_corr w combined Hlen Hconst). reflexivity.
Qed.

Lemma nan_statistics_rejected_witness :
  fst (calculate market "FLAT" "AAA" (Some from) (Some upto) [])
  = Raise (Exn ValueError "Calculation error: Calculation resulted in NaN values").
Proof.
  pose proof (nan_statistics_rejected market "FLAT" "AAA" (Some from) (Some upto) [])
    as (_ & _ & H).
  apply (H from upto (getitem flat "Adj Close") (getitem aaa "Adj Close")
           flat_aaa flat_aaa_aligned).
  - rewrite flat_aaa_returns. unfold len. simpl. lia.
  - discriminate.
  - left. rewrite flat_aaa_returns.
    repeat constructor; simpl; f_equal; lra.
Defined.

(** ** Counting rows *)

(** C7.  In a result, [data_points] counts the cleaned return rows,
    [trading_days] the rows of the aligned table, and the first is the
    second less some [k >= 1]: the first row of the table never has a
    return. *)
Theorem data_points_below_trading_days (w : world) (t1 t2 : string)
    (s e : option pytime) (l l' : log) (r : result) :
  calculate w t1 t2 s e l = (Ok r, l') ->
  exists a b s1 s2 combined k,
    aligned w t1 t2 s e a b s1 s2 combined
    /\ data_points r = len (returns_of w combined)
    /\ trading_days r = len combined
    /\ 1 <= k
    /\ data_points r = trading_days r - k.
Proof.
  intros H. apply calculate_success in H.
  destruct H as (a & b & s1 & s2 & combined & first & rest
                 & Hal & _ & Hr & Hlen & _ & _ & _ & ->).
  exists a, b, s1, s2, combined, (len combined - len (returns_of w combined)).
  assert (Hne : combined <> []).
  { intros ->. unfold returns_of in Hr. rewrite returns_of_empty in Hr. discriminate. }
  pose proof (returns_lose_first (pad_default w) combined Hne) as Hk.
  simpl. split; [exact Hal|]. split; [reflexivity|]. split; [reflexivity|].
  unfold len, returns_of in *. lia.
Qed.

Lemma data_points_below_trading_days_witness :
  exists a b s1 s2 combined k,
    aligned market "AAA" "BBB" (Some from) (Some upto) a b s1 s2 combined
    /\ data_points (aaa_bbb_result from upto) = len (returns_of market combined)
    /\ trading_days (aaa_bbb_result from upto) = len combined
    /\ 1 <= k
    /\ data_points (aaa_bbb_result from upto)
       = trading_days (aaa_bbb_result from upto) - k.
Proof.
  exact (data_points_below_trading_days market "AAA" "BBB" (Some from) (Some upto)
           [] _ _ aaa_bbb_run_explicit).
Defined.

(** ** Dates of the result *)






(** ** Alignment *)

(** C1, as stated, fails: under the forward fill of pandas before 3.0 the
    drop does not leave an inner join.  GAP has no price on day 739002, yet
    the returns of AAA and GAP keep that day, and the run succeeds on two
    rows of which the first is dated 739002. *)
Lemma forward_fill_keeps_unshared_date :
  aligned market "AAA" "GAP" (Some from) (Some upto) from upto
          (getitem aaa "Adj Close") (getitem gappy "Adj Close") aaa_gap
  /\ In (day 739002) (frame_index (returns_of market aaa_gap))
  /\ ~ In (day 739002) (index_of (getitem gappy "Adj Close"))
  /\ exists r l',
       calculate market "AAA" "GAP" (Some from) (Some upto) [] = (Ok r, l')
       /\ data_points r = 2
       /\ first_date r = 739002.
Proof.
  split; [exact (aaa_gap_aligned market eq_refl)|].
  split; [rewrite aaa_gap_returns_fill; left; reflexivity|].
  split.
  - simpl. intros [H|[H|[]]]; vm_compute in H; discriminate.
  - exists aaa_gap_result, [Call "AAA" from upto; Call "GAP" from upto].
    split; [exact aaa_gap_run|split; reflexivity].
Qed.

(** C1.  The aligned table has a row for every date of either series and
    for no other; a cell holds the value its series has under the row's
    date, and is a gap (NaN) where the series lacks the date.  The changes
    keep the dates of the table; the first row has none, and from the second
    row on a change is the cell over the cell above it, less one, taken on
    the table itself or, when [pct_change] fills forward, on the table with
    each gap filled by the filled cell above it.  The returns are exactly
    the rows of the changes without a NaN: their two columns run over one
    and the same list of dates, have the same length and hold no NaN.  Every
    date left is a date of the table, and a date of both series when
    [pct_change] does not fill forward.  A result is computed from exactly
    these rows. *)
Theorem returns_aligned (w : world) (t1 t2 : string) (s e : option pytime)
    (a b : pytime) (s1 s2 : series) (combined : frame) :
  aligned w t1 t2 s e a b s1 s2 combined ->
  let filled := if pad_default w then ffill combined else combined in
  let changes := pct_change (pad_default w) combined in
  (forall ts, In ts (frame_index combined)
              <-> In ts (index_of s1) \/ In ts (index_of s2))
  /\ (forall x, In x combined ->
        ((~ In (r_ts x) (index_of s1) -> r_a x = NaN)
         /\ (In (r_ts x) (index_of s1) -> In (r_ts x, r_a x) s1))
        /\ ((~ In (r_ts x) (index_of s2) -> r_b x = NaN)
            /\ (In (r_ts x) (index_of s2) -> In (r_ts x, r_b x) s2)))
  /\ (forall i, (i < List.length combined)%nat ->
        cell_a (ffill combined) i
        = (if isna (cell_a combined i)
           then match i with O => NaN | S j => cell_a (ffill combined) j end
           else cell_a combined i)
        /\ cell_b (ffill combined) i
           = (if isna (cell_b combined i)
              then match i with O => NaN | S j => cell_b (ffill combined) j end
              else cell_b combined i))
  /\ frame_index changes = frame_index combined
  /\ (cell_a changes 0 = NaN /\ cell_b changes 0 = NaN)
  /\ (forall i, (S i < List.length combined)%nat ->
        cell_a changes (S i)
        = fsub (fdiv (cell_a filled (S i)) (cell_a filled i)) (Fin 1)
        /\ cell_b changes (S i)
           = fsub (fdiv (cell_b filled (S i)) (cell_b filled i)) (Fin 1))
  /\ (forall x, In x (returns_of w combined)
                <-> In x changes
                    /\ isna (r_a x) = false /\ isna (r_b x) = false)
  /\ index_of (column_a (returns_of w combined))
     = index_of (column_b (returns_of w combined))
  /\ List.length (column_a (returns_of w combined))
     = List.length (column_b (returns_of w combined))
  /\ (forall x, In x (returns_of w combined) ->
        In (r_ts x) (frame_index combined))
  /\ (pad_default w = false ->
      forall x, In x (returns_of w combined) ->
        In (r_ts x) (index_of s1) /\ In (r_ts x) (index_of s2))
  /\ (forall l l' r, calculate w t1 t2 s e l = (Ok r, l') ->
        data_points r = len (returns_of w combined)
        /\ correlation r
           = pyround (series_corr (column_a (returns_of w combined))
                                  (column_b (returns_of w combined))) 4
        /\ covariance r
           = pyround (series_cov (column_a (returns_of w combined))
                                 (column_b (returns_of w combined))) 6).
Proof.
  intros Hal filled changes. pose proof Hal as (_ & _ & _ & _ & Hc).
  split; [exact (concat_outer_join _ _ _ Hc)|].
  split; [intros x Hx; exact (concat_cells _ _ _ x Hc Hx)|].
  split; [exact (ffill_cell combined)|].
  split; [exact (frame_index_pct_change (pad_default w) combined)|].
  split; [exact (pct_change_first_cell (pad_default w) combined)|].
  split; [intros i Hi; exact (pct_change_cell (pad_default w) combined i Hi)|].
  split; [intros x; exact (dropna_iff changes x)|].
  split.
  { destruct (columns_share_index (returns_of w combined)) as [-> ->]. reflexivity. }
  split; [unfold column_a, column_b; rewrite !length_map; reflexivity|].
  split; [intros x Hx; exact (returns_index_In _ _ x Hx)|].
  split.
  { intros Hpad x Hx. unfold returns_of in Hx. rewrite Hpad in Hx.
    exact (returns_no_fill_inner _ _ _ x Hc Hx). }
  intros l l' r H. apply calculate_success in H.
  destruct H as (a' & b' & s1' & s2' & combined' & first & rest
                 & Hal' & _ & _ & _ & _ & _ & _ & ->).
  destruct (aligned_functional _ _ _ _ _ _ _ _ _ _ _ _ _ _ _ Hal Hal')
    as (_ & _ & _ & _ & <-).
  simpl. repeat split.
Qed.

Lemma returns_aligned_witness :
  (forall x, In x (returns_of market aaa_gap)
             <-> In x (pct_change true aaa_gap)
                 /\ isna (r_a x) = false /\ isna (r_b x) = false)
  /\ index_of (column_a (returns_of market aaa_gap))
     = index_of (column_b (returns_of market aaa_gap))
  /\ List.length (column_a (returns_of market aaa_gap))
     = List.length (column_b (returns_of market aaa_gap))
  /\ (forall x, In x (returns_of market aaa_gap) ->
        In (r_ts x) (frame_index aaa_gap)).
Proof.
  pose proof (returns_aligned market "AAA" "GAP" (Some from) (Some upto) from upto
                _ _ aaa_gap (aaa_gap_aligned market eq_refl))
    as (_ & _ & _ & _ & _ & _ & H1 & H2 & H3 & H4 & _).
  exact (conj H1 (conj H2 (conj H3 H4))).
Defined.

End Claims.

(* ================================================================== *)
(** * Further properties of the calculator *)
(* ================================================================== *)

Module CalculatorMore.

Import Py Np Pd CorrelationCalculator NpFacts PdFacts CalculatorFacts.
Import Fixtures FixtureFacts More.
Open Scope string_scope.
Open Scope Z_scope.

(** ** Requests *)

(** X1.  When the fetch for the first ticker fails, [calculate] stops there: the
    second ticker is never requested. *)
Theorem first_fetch_failure_stops (w : world) (t1 t2 : string)
    (s e : option pytime) (l : log) (a : pytime) (x : exn) :
  resolved_start w s e = Ok a ->
  fetched w t1 a (resolved_end w e) = Raise x ->
  calculate w t1 t2 s e l
  = (Raise (Exn ValueError ("Calculation error: " ++ str x)),
     (l ++ [Call t1 a (resolved_end w e)])%list).
Proof.
  intros Ha Hx. rewrite calculate_eq, pipeline_eq, Ha. cbv zeta.
  rewrite Hx. reflexivity.
Qed.

Lemma first_fetch_failure_stops_witness :
  calculate market "ZZZ" "AAA" (Some from) (Some upto) []
  = (Raise (Exn ValueError
              "Calculation error: Error fetching data for ZZZ: connection refused"),
     [Call "ZZZ" from upto]).
Proof.
  exact (first_fetch_failure_stops market "ZZZ" "AAA" (Some from) (Some upto) []
           from (Exn ValueError "Error fetching data for ZZZ: connection refused")
           eq_refl eq_refl).
Defined.

(** X2.  Without a start, an end within the first 365 days of the calendar makes
    the default start fall before [date.min]: [calculate] reports the
    overflow and sends no request at all. *)
Theorem early_end_without_start (w : world) (t1 t2 : string)
    (e : option pytime) (l : log) :
  ordinal_of (resolved_end w e) <= 365 ->
  calculate w t1 t2 None e l
  = (Raise (Exn ValueError "Calculation error: date value out of range"), l).
Proof.
  intros H. rewrite calculate_eq, pipeline_eq.
  unfold resolved_start, sub_days.
  replace (ordinal_of (resolved_end w e) - 365 <? 1) with true
    by (symmetry; apply Z.ltb_lt; lia).
  reflexivity.
Qed.

Lemma early_end_without_start_witness :
  calculate market "AAA" "BBB" None (Some (PyDate 100)) []
  = (Raise (Exn ValueError "Calculation error: date value out of range"), []).
Proof.
  apply (early_end_without_start market "AAA" "BBB" (Some (PyDate 100)) []).
  simpl. lia.
Defined.

(** ** The shape of a result *)

(** X3.  A result always rests on at least two return rows and three table rows,
    names the tickers it was asked for, and carries plain dates, never
    datetimes, as its requested range. *)
Theorem result_shape (w : world) (t1 t2 : string) (s e : option pytime)
    (l l' : log) (r : result) :
  calculate w t1 t2 s e l = (Ok r, l') ->
  2 <= data_points r
  /\ 3 <= trading_days r
  /\ ticker1 r = t1
  /\ ticker2 r = t2
  /\ is_datetime (start_date r) = false
  /\ is_datetime (end_date r) = false.
Proof.
  intros H. apply calculate_success in H.
  destruct H as (a & b & s1 & s2 & combined & first & rest
                 & _ & _ & Hr & Hlen & _ & _ & _ & ->).
  assert (Hne : combined <> []).
  { intros ->. unfold returns_of in Hr. rewrite returns_of_empty in Hr. discriminate. }
  pose proof (returns_lose_first (pad_default w) combined Hne) as Hk.
  simpl. rewrite !date_val_ordinal.
  repeat split; try reflexivity; try assumption.
  unfold len, returns_of in *. lia.
Qed.

Lemma result_shape_witness :
  2 <= data_points (aaa_bbb_result from upto)
  /\ 3 <= trading_days (aaa_bbb_result from upto)
  /\ ticker1 (aaa_bbb_result from upto) = "AAA"
  /\ ticker2 (aaa_bbb_result from upto) = "BBB"
  /\ is_datetime (start_date (aaa_bbb_result from upto)) = false
  /\ is_datetime (end_date (aaa_bbb_result from upto)) = false.
Proof.
  exact (result_shape market "AAA" "BBB" (Some from) (Some upto) [] _ _
           aaa_bbb_run_explicit).
Defined.

(** X4.  Asked to correlate a ticker with itself, [calculate] never returns a
    result: both columns of the table carry the same label, a selection by
    that label is a frame, and the statistics are not computed. *)
Theorem same_ticker_never_succeeds (w : world) (t : string)
    (s e : option pytime) (l : log) :
  exists x l', calculate w t t s e l = (Raise x, l').
Proof.
  destruct (calculate w t t s e l) as [[r|x] l'] eqn:E.
  - apply calculate_success in E.
    destruct E as (a & b & s1 & s2 & combined & first & rest
                   & _ & _ & _ & _ & Ht & _). congruence.
  - exists x, l'. reflexivity.
Qed.

(** ** Histories that overlap fully *)

Lemma row_eta (r : row) : Row (r_ts r) (r_a r) (r_b r) = r.
Proof. destruct r; reflexivity. Qed.

Lemma ffill_from_complete (la lb : pyfloat) (f : frame) :
  (forall r, In r f -> isna (r_a r) = false /\ isna (r_b r) = false) ->
  ffill_from la lb f = f.
Proof.
  revert la lb; induction f as [|r f IH]; intros la lb H; [reflexivity|].
  simpl. destruct (H r (or_introl eq_refl)) as [-> ->].
  rewrite row_eta. f_equal. apply IH. intros x Hx. apply H. right; assumption.
Qed.

Lemma pct_change_complete (pad : bool) (f : frame) :
  (forall r, In r f -> isna (r_a r) = false /\ isna (r_b r) = false) ->
  pct_change pad f = pct_change false f.
Proof.
  intros H. unfold pct_change, ffill. destruct pad; [|reflexivity].
  rewrite ffill_from_complete by assumption. reflexivity.
Qed.

Lemma concat_same_index (s1 s2 : series) :
  index_of s1 = index_of s2 -> concat s1 s2 = Ok (zip_rows s1 s2).
Proof.
  intros H. unfold concat. apply index_eqb_eq in H. rewrite H. reflexivity.
Qed.

Lemma zip_rows_values (s1 s2 : series) (r : row) :
  In r (zip_rows s1 s2) ->
  In (r_a r) (values_of s1) /\ In (r_b r) (values_of s2).
Proof.
  unfold zip_rows, values_of. intros H. apply in_map_iff in H.
  destruct H as ([[k1 v1] [k2 v2]] & <- & H). simpl.
  split.
  - apply in_combine_l in H. apply in_map_iff. exists (k1, v1). auto.
  - apply in_combine_r in H. apply in_map_iff. exists (k2, v2). auto.
Qed.

Lemma fetched_ignores_fill (w : world) (pad : bool) (t : string) (a b : pytime) :
  fetched (World (clock w) (yf_download w) pad) t a b = fetched w t a b.
Proof. rewrite !fetched_eq. reflexivity. Qed.

(** X5.  When the two fetched series cover the same dates and hold no NaN, the
    outcome of [calculate] does not depend on whether the installed pandas
    fills gaps forward in [pct_change]. *)
Theorem fill_default_irrelevant_on_overlap (w : world) (t1 t2 : string)
    (s e : option pytime) (l : log) (a b : pytime) (s1 s2 : series)
    (combined : frame) (pad : bool) :
  aligned w t1 t2 s e a b s1 s2 combined ->
  index_of s1 = index_of s2 ->
  (forall v, In v (values_of s1) -> isna v = false) ->
  (forall v, In v (values_of s2) -> isna v = false) ->
  calculate (World (clock w) (yf_download w) pad) t1 t2 s e l
  = calculate w t1 t2 s e l.
Proof.
  intros (Ha & Hb & H1 & H2 & Hc) Hidx Hv1 Hv2.
  rewrite !calculate_eq, !pipeline_eq.
  change (resolved_start (World (clock w) (yf_download w) pad) s e)
    with (resolved_start w s e).
  change (resolved_end (World (clock w) (yf_download w) pad) e)
    with (resolved_end w e).
  rewrite Ha. cbv zeta. rewrite !fetched_ignores_fill, Hb, H1, H2.
  replace (analyse (pad_default (World (clock w) (yf_download w) pad))
                   t1 t2 (date_val a) (date_val b) s1 s2)
    with (analyse (pad_default w) t1 t2 (date_val a) (date_val b) s1 s2);
    [reflexivity|].
  unfold analyse. rewrite Hc.
  assert (Hcomplete : forall r, In r combined ->
                                isna (r_a r) = false /\ isna (r_b r) = false).
  { rewrite (concat_same_index _ _ Hidx) in Hc. injection Hc as <-.
    intros r Hr. apply zip_rows_values in Hr. destruct Hr. auto. }
  simpl pad_default.
  rewrite (pct_change_complete (pad_default w) combined Hcomplete).
  rewrite (pct_change_complete pad combined Hcomplete). reflexivity.
Qed.

Lemma aaa_bbb_values (v : pyfloat) :
  In v (values_of (getitem aaa "Adj Close"))
  \/ In v (values_of (getitem bbb "Adj Close")) -> isna v = false.
Proof.
  simpl. intros [H|H]; repeat (destruct H as [<-|H]; [reflexivity|]);
    contradiction.
Qed.

Lemma fill_default_irrelevant_on_overlap_witness :
  calculate market_no_fill "AAA" "BBB" (Some from) (Some upto) []
  = calculate market "AAA" "BBB" (Some from) (Some upto) [].
Proof.
  exact (fill_default_irrelevant_on_overlap market "AAA" "BBB"
           (Some from) (Some upto) [] from upto _ _ aaa_bbb false
           aaa_bbb_aligned eq_refl
           (fun v H => aaa_bbb_values v (or_introl H))
           (fun v H => aaa_bbb_values v (or_intror H))).
Defined.

Lemma pct_from_priced (pa pb : pyfloat) (f : frame) :
  nonzero_price pa -> nonzero_price pb ->
  (forall r, In r f -> nonzero_price (r_a r) /\ nonzero_price (r_b r)) ->
  dropna (pct_from pa pb f) = pct_from pa pb f.
Proof.
  revert pa pb; induction f as [|r f IH]; intros pa pb Ha Hb H; [reflexivity|].
  destruct (H r (or_introl eq_refl)) as [Hra Hrb].
  simpl. unfold dropna. simpl.
  destruct Ha as (qa & -> & Hqa), Hb as (qb & -> & Hqb).
  pose proof Hra as (xa & Ea & Hxa). pose proof Hrb as (xb & Eb & Hxb).
  unfold row_complete. simpl. rewrite Ea, Eb.
  rewrite !change_reals by assumption. simpl.
  f_equal. rewrite <- Ea, <- Eb. apply IH; try assumption.
  intros x Hx. apply H. right; assumption.
Qed.

(** X6.  When the two fetched series cover the same dates and every price is a
    number other than zero, exactly one row is lost between the table and
    the returns: [data_points] is [trading_days - 1]. *)
Theorem full_overlap_loses_one_row (w : world) (t1 t2 : string)
    (s e : option pytime) (l l' : log) (r : result)
    (a b : pytime) (s1 s2 : series) (combined : frame) :
  calculate w t1 t2 s e l = (Ok r, l') ->
  aligned w t1 t2 s e a b s1 s2 combined ->
  index_of s1 = index_of s2 ->
  Forall nonzero_price (values_of s1) ->
  Forall nonzero_price (values_of s2) ->
  data_points r = trading_days r - 1.
Proof.
  intros H Hal Hidx Hp1 Hp2. apply calculate_success in H.
  destruct H as (a' & b' & s1' & s2' & combined' & first & rest
                 & Hal' & _ & _ & Hlen & _ & _ & _ & ->).
  destruct (aligned_functional _ _ _ _ _ _ _ _ _ _ _ _ _ _ _ Hal Hal')
    as (_ & _ & _ & _ & <-).
  destruct Hal as (_ & _ & _ & _ & Hc).
  rewrite (concat_same_index _ _ Hidx) in Hc. injection Hc as <-.
  assert (Hpriced : forall x, In x (zip_rows s1 s2) ->
                              nonzero_price (r_a x) /\ nonzero_price (r_b x)).
  { intros x Hx. apply zip_rows_values in Hx. destruct Hx as [Hxa Hxb].
    rewrite Forall_forall in Hp1, Hp2. auto. }
  assert (Hcomplete : forall x, In x (zip_rows s1 s2) ->
                                isna (r_a x) = false /\ isna (r_b x) = false).
  { intros x Hx. destruct (Hpriced x Hx) as [(p & -> & _) (q & -> & _)]. auto. }
  simpl. unfold returns_of.
  rewrite (pct_change_complete _ _ Hcomplete). unfold pct_change.
  destruct (zip_rows s1 s2) as [|x f] eqn:Ez.
  { unfold returns_of in Hlen. rewrite returns_of_empty in Hlen.
    unfold len in Hlen. simpl in Hlen. lia. }
  assert (Hret : dropna (pct_from NaN NaN (x :: f))
                 = pct_from (r_a x) (r_b x) f).
  { simpl pct_from. unfold dropna at 1. simpl filter.
    unfold row_complete at 1. simpl r_a. rewrite change_no_previous. simpl.
    fold (dropna (pct_from (r_a x) (r_b x) f)).
    apply pct_from_priced.
    - apply Hpriced. left; reflexivity.
    - apply Hpriced. left; reflexivity.
    - intros y Hy. apply Hpriced. right; assumption. }
  rewrite Hret. unfold len.
  rewrite <- (length_frame_index (pct_from _ _ f)), frame_index_pct_from,
    length_frame_index.
  cbn [List.length]. lia.
Qed.

Lemma full_overlap_loses_one_row_witness :
  data_points (aaa_bbb_result from upto)
  = trading_days (aaa_bbb_result from upto) - 1.
Proof.
  apply (full_overlap_loses_one_row market "AAA" "BBB" (Some from) (Some upto)
           [] _ _ from upto _ _ aaa_bbb aaa_bbb_run_explicit aaa_bbb_aligned
           eq_refl).
  - repeat constructor; eexists; (split; [reflexivity|lra]).
  - repeat constructor; eexists; (split; [reflexivity|lra]).
Defined.

(** ** The range of the correlation *)

Lemma series_corr_unit (x y : series) :
  isna (series_corr x y) = false ->
  exists c, series_corr x y = Fin c /\ (-1 <= c <= 1)%R.
Proof.
  unfold series_corr. destruct (valid_pairs x y); [discriminate|].
  apply np_corrcoef_unit.
Qed.

(** X18.  In every result the correlation is a number between -1 and 1:
    numpy clips the coefficient to that interval, whatever the arithmetic
    before it gave, and rounding to four places does not leave it. *)
Theorem correlation_clipped_and_rounded (w : world) (t1 t2 : string)
    (s e : option pytime) (l l' : log) (r : result) :
  calculate w t1 t2 s e l = (Ok r, l') ->
  exists c, correlation r = Fin c /\ (-1 <= c <= 1)%R.
Proof.
  intros H. apply calculate_success in H.
  destruct H as (a & b & s1 & s2 & combined & first & rest
                 & _ & _ & _ & _ & _ & Hn1 & _ & ->).
  destruct (series_corr_unit _ _ Hn1) as (c0 & E & Hc0).
  simpl. rewrite E. apply pyround_unit_range. exact Hc0.
Qed.

Lemma correlation_clipped_and_rounded_witness :
  exists c, correlation (aaa_bbb_result from upto) = Fin c /\ (-1 <= c <= 1)%R.
Proof.
  exact (correlation_clipped_and_rounded market "AAA" "BBB"
           (Some from) (Some upto) [] _ _ aaa_bbb_run_explicit).
Defined.

End CalculatorMore.

(* ================================================================== *)
(** * Facts about the API view *)
(* ================================================================== *)

Module ViewFacts.

Import Py Np Pd CorrelationCalculator NpFacts PdFacts CalculatorFacts.
Import Fixtures FixtureFacts View.
Open Scope string_scope.
Open Scope Z_scope.

(** What the [try] block of the view does after a result came back. *)
Lemma post_eq (s : site) (t1 t2 : string) (sd ed : option Z) (st : state) :
  post s (Accepted t1 t2 sd ed) st =
  match calculation s t1 t2 sd ed (requests st) with
  | (Raise x, l) =>
      (Ok (Response (ErrorMessage (str x)) 400), State l (rows st))
  | (Ok r, l) =>
      match create_raises s (stored_row r) with
      | None =>
          (Ok (Response (Analysis (stored_row r)) 201),
           State l (rows st ++ [stored_row r])%list)
      | Some x =>
          (Ok (if is_value_error x
               then Response (ErrorMessage (str x)) 400
               else Response
                      (ErrorMessage ("An unexpected error occurred: " ++ str x))
                      500),
           State l (rows st))
      end
  end.
Proof.
  unfold post, calculation, try_except, bind, on_requests.
  rewrite calculate_eq.
  destruct (pipeline _ _ _ _ _ _) as [[r|x] l]; [|reflexivity].
  unfold lift, objects_create, ret. simpl.
  fold (stored_row r).
  destruct (create_raises s (stored_row r)) as [x|]; [|reflexivity].
  simpl. destruct (is_value_error x); reflexivity.
Qed.

Lemma aaa_bbb_calculation (s : site) :
  site_world s = market ->
  calculation s "AAA" "BBB" (Some 739000) (Some 739010) (requests fresh)
  = (Ok (aaa_bbb_result from upto),
     [Call "AAA" from upto; Call "BBB" from upto]).
Proof.
  intros H. unfold calculation. rewrite H. exact aaa_bbb_run_explicit.
Qed.

(** X9.  A failed calculation is answered with status 400 and the calculator's
    own message, which starts "Calculation error: "; no row is stored.  A
    failure of the calculation is never reported as a server error. *)
Theorem calculation_failure_is_bad_request (s : site) (t1 t2 : string)
    (sd ed : option Z) (st : state) (x : exn) (l : log) :
  calculation s t1 t2 sd ed (requests st) = (Raise x, l) ->
  post s (Accepted t1 t2 sd ed) st
  = (Ok (Response (ErrorMessage (exn_msg x)) 400), State l (rows st))
  /\ exists detail, exn_msg x = "Calculation error: " ++ detail.
Proof.
  intros H. split.
  - rewrite post_eq, H. reflexivity.
  - unfold calculation in H. rewrite calculate_eq in H.
    destruct (pipeline _ _ _ _ _ _) as [[r|c] l0]; [discriminate|].
    injection H as <- _. eexists; reflexivity.
Qed.

Lemma calculation_failure_is_bad_request_witness :
  post shop (Accepted "AAA" "NEW" (Some 739000) (Some 739010)) fresh
  = (Ok (Response
           (ErrorMessage
              "Calculation error: Insufficient data points for correlation calculation")
           400),
     State [Call "AAA" from upto; Call "NEW" from upto] []).
Proof.
  refine (proj1 (calculation_failure_is_bad_request shop "AAA" "NEW"
                   (Some 739000) (Some 739010) fresh
                   (Exn ValueError
                      "Calculation error: Insufficient data points for correlation calculation")
                   [Call "AAA" from upto; Call "NEW" from upto] _)).
  unfold calculation. simpl option_map.
  change (site_world shop) with market. simpl requests.
  change (Some (PyDate 739000)) with (Some from).
  change (Some (PyDate 739010)) with (Some upto).
  rewrite calculate_eq, pipeline_eq.
  destruct aaa_new_aligned as (Ha & Hb & H1 & H2 & Hc).
  rewrite Ha. cbv zeta. rewrite Hb, H1, H2.
  unfold analyse. rewrite Hc.
  change (dropna (pct_change (pad_default market) aaa_new))
    with (returns_of market aaa_new).
  rewrite aaa_new_returns. reflexivity.
Defined.

(** X10.  When the calculation succeeds and the database accepts the row, the
    answer is 201 with that row, and the row stored is the whole result:
    every key of the dictionary is a field of the model, so the filter drops
    nothing, and the two texts are stored as dates. *)
Theorem created_row_is_the_result (s : site) (t1 t2 : string)
    (sd ed : option Z) (st : state) (r : result) (l : log) :
  calculation s t1 t2 sd ed (requests st) = (Ok r, l) ->
  create_raises s (stored_row r) = None ->
  post s (Accepted t1 t2 sd ed) st
  = (Ok (Response (Analysis (stored_row r)) 201),
     State l (rows st ++ [stored_row r])%list)
  /\ map fst (stored_row r) = map fst (as_dict r)
  /\ dict_get (stored_row r) "first_date" = Ok (VDate (PyDate (first_date r)))
  /\ dict_get (stored_row r) "last_date" = Ok (VDate (PyDate (last_date r))).
Proof.
  intros H Hc. repeat split. rewrite post_eq, H, Hc. reflexivity.
Qed.

Lemma created_row_is_the_result_witness :
  post shop (Accepted "AAA" "BBB" (Some 739000) (Some 739010)) fresh
  = (Ok (Response (Analysis (stored_row (aaa_bbb_result from upto))) 201),
     State [Call "AAA" from upto; Call "BBB" from upto]
           [stored_row (aaa_bbb_result from upto)]).
Proof.
  exact (proj1 (created_row_is_the_result shop "AAA" "BBB"
                  (Some 739000) (Some 739010) fresh _ _
                  aaa_bbb_run_explicit eq_refl)).
Defined.

(** X12.  Status 500 has one cause only: the calculation succeeded and the
    database raised something that is not a [ValueError]. *)
Theorem server_error_only_from_database (s : site) (v : validation)
    (st st' : state) (resp : response) :
  post s v st = (Ok resp, st') ->
  (resp_status resp = 500 <->
   exists t1 t2 sd ed r l x,
     v = Accepted t1 t2 sd ed
     /\ calculation s t1 t2 sd ed (requests st) = (Ok r, l)
     /\ create_raises s (stored_row r) = Some x
     /\ is_value_error x = false).
Proof.
  destruct v as [errors|t1 t2 sd ed].
  - simpl. intros [= <- <-]. simpl. split; [discriminate|].
    intros (? & ? & ? & ? & ? & ? & ? & H & _). discriminate.
  - rewrite post_eq.
    destruct (calculation s t1 t2 sd ed (requests st)) as [[r|x] l] eqn:Ec.
    + destruct (create_raises s (stored_row r)) as [x|] eqn:Ex.
      * destruct (is_value_error x) eqn:Ev; intros [= <- <-]; simpl; split.
        -- discriminate.
        -- intros (? & ? & ? & ? & r' & l' & x' & H & Hc & Hx & Hv).
           injection H as <- <- <- <-. rewrite Ec in Hc. injection Hc as <- <-.
           congruence.
        -- intros _. exists t1, t2, sd, ed, r, l, x. auto.
        -- reflexivity.
      * intros [= <- <-]; simpl; split; [discriminate|].
        intros (? & ? & ? & ? & r' & l' & x' & H & Hc & Hx & Hv).
        injection H as <- <- <- <-. rewrite Ec in Hc. injection Hc as <- <-.
        congruence.
    + intros [= <- <-]; simpl; split; [discriminate|].
      intros (? & ? & ? & ? & r' & l' & x' & H & Hc & _).
      injection H as <- <- <- <-. rewrite Ec in Hc. discriminate.
Qed.

Lemma server_error_only_from_database_witness :
  resp_status
    (Response (ErrorMessage "An unexpected error occurred: database is locked") 500)
  = 500
  <-> exists t1 t2 sd ed r l x,
        Accepted "AAA" "BBB" (Some 739000) (Some 739010) = Accepted t1 t2 sd ed
        /\ calculation closed_shop t1 t2 sd ed (requests fresh) = (Ok r, l)
        /\ create_raises closed_shop (stored_row r) = Some x
        /\ is_value_error x = false.
Proof.
  apply (server_error_only_from_database closed_shop
           (Accepted "AAA" "BBB" (Some 739000) (Some 739010)) fresh
           (State [Call "AAA" from upto; Call "BBB" from upto] [])).
  rewrite post_eq, (aaa_bbb_calculation closed_shop eq_refl). reflexivity.
Defined.

(** X13.  For a request created with both dates given, the stored row carries
    exactly the requested tickers and dates, and the price service was asked
    once per ticker for exactly that range. *)
Theorem created_row_echoes_request (s : site) (t1 t2 : string) (d1 d2 : Z)
    (st st' : state) (resp : response) :
  post s (Accepted t1 t2 (Some d1) (Some d2)) st = (Ok resp, st') ->
  resp_status resp = 201 ->
  exists row,
    resp_body resp = Analysis row
    /\ dict_get row "ticker1" = Ok (VStr t1)
    /\ dict_get row "ticker2" = Ok (VStr t2)
    /\ dict_get row "start_date" = Ok (VDate (PyDate d1))
    /\ dict_get row "end_date" = Ok (VDate (PyDate d2))
    /\ requests st'
       = (requests st ++ [Call t1 (PyDate d1) (PyDate d2);
                          Call t2 (PyDate d1) (PyDate d2)])%list.
Proof.
  rewrite post_eq.
  destruct (calculation s t1 t2 (Some d1) (Some d2) (requests st))
    as [[r|x] l] eqn:Ec.
  2:{ intros [= <- <-]. discriminate. }
  destruct (create_raises s (stored_row r)) as [x|].
  { destruct (is_value_error x); intros [= <- <-]; discriminate. }
  intros [= <- <-] _.
  unfold calculation in Ec. apply calculate_success in Ec.
  destruct Ec as (a & b & s1 & s2 & combined & first & rest
                  & (Ha & Hb & _) & Hl & _ & _ & _ & _ & _ & ->).
  simpl in Ha, Hb. injection Ha as <-. subst b.
  exists (stored_row (assembled t1 t2 (date_val (PyDate d1)) (date_val (PyDate d2))
                                combined
                                (returns_of (site_world s) combined)
                                (r_ts first) (r_ts (last rest first)))).
  simpl. repeat split. exact Hl.
Qed.

Lemma created_row_echoes_request_witness :
  exists row,
    Analysis (stored_row (aaa_bbb_result from upto)) = Analysis row
    /\ dict_get row "ticker1" = Ok (VStr "AAA")
    /\ dict_get row "ticker2" = Ok (VStr "BBB")
    /\ dict_get row "start_date" = Ok (VDate (PyDate 739000))
    /\ dict_get row "end_date" = Ok (VDate (PyDate 739010))
    /\ [Call "AAA" from upto; Call "BBB" from upto]
       = ([] ++ [Call "AAA" (PyDate 739000) (PyDate 739010);
                 Call "BBB" (PyDate 739000) (PyDate 739010)])%list.
Proof.
  apply (created_row_echoes_request shop "AAA" "BBB" 739000 739010 fresh
           (State [Call "AAA" from upto; Call "BBB" from upto]
                  [stored_row (aaa_bbb_result from upto)])
           (Response (Analysis (stored_row (aaa_bbb_result from upto))) 201)).
  - rewrite post_eq, (aaa_bbb_calculation shop eq_refl). reflexivity.
  - reflexivity.
Defined.

End ViewFacts.

(* ================================================================== *)
(** * Facts about the command line entry point *)
(* ================================================================== *)

Module ManageFacts.

Import Py Manage.
Open Scope string_scope.

(** [main] runs the command, or fails on the import, in the environment
    [env'] it has prepared. *)
Lemma main_eq (installed : bool) (execute : list string -> M environ unit)
    (argv : list string) (env : environ) :
  exists env',
    main installed execute argv env
    = (if installed then execute argv env'
       else (Raise (import_error "Couldn't import Django."), env'))
    /\ env' = if in_argv "--settings" argv then env
              else match env settings_variable with
                   | Some _ => env
                   | None => fun k => if String.eqb k settings_variable
                                      then Some dev_settings else env k
                   end.
Proof.
  unfold main, bind, getenv, setdefault, try_except, import_django, ret, raise.
  destruct (in_argv "--settings" argv); cbn [negb].
  - exists env. destruct installed; split; reflexivity.
  - destruct (env settings_variable) as [v|] eqn:E; cbn [truthy negb].
    + exists env. destruct (String.eqb v ""); cbn [negb]; rewrite ?E;
        destruct installed; split; reflexivity.
    + rewrite E.
      exists (fun k => if String.eqb k settings_variable
                       then Some dev_settings else env k).
      destruct installed; split; reflexivity.
Qed.

(** X14.  The settings variable the command runs under: a value already in the
    environment is kept as it is, even the empty string; an unset variable
    becomes the development settings unless some argument is exactly
    "--settings", in which case it stays unset.  No other variable is
    touched. *)
Theorem main_settings_choice (installed : bool)
    (execute : list string -> M environ unit) (argv : list string)
    (env : environ) :
  exists env',
    main installed execute argv env
    = (if installed then execute argv env'
       else (Raise (import_error "Couldn't import Django."), env'))
    /\ (forall v, env settings_variable = Some v ->
                  env' settings_variable = Some v)
    /\ (env settings_variable = None ->
        env' settings_variable
        = if in_argv "--settings" argv then None else Some dev_settings)
    /\ (forall k, k <> settings_variable -> env' k = env k).
Proof.
  destruct (main_eq installed execute argv env) as (env' & Hm & ->).
  eexists. split; [exact Hm|].
  destruct (in_argv "--settings" argv).
  - split; [auto|]. split; auto.
  - destruct (env settings_variable) as [v|] eqn:E.
    + split; [intros v0 H; rewrite E; exact H|].
      split; [intros; discriminate|auto].
    + split; [intros; discriminate|]. split.
      * intros _. rewrite String.eqb_refl. reflexivity.
      * intros k Hk. apply String.eqb_neq in Hk. rewrite Hk. reflexivity.
Qed.

Lemma main_settings_choice_witness :
  exists env',
    main true idle ["manage.py"; "runserver"] blank_settings = (Ok tt, env')
    /\ env' settings_variable = Some "".
Proof.
  destruct (main_settings_choice true idle ["manage.py"; "runserver"] blank_settings)
    as (env' & Hm & Hkeep & _).
  exists env'. split; [exact Hm|]. exact (Hkeep "" eq_refl).
Defined.

End ManageFacts.

(* ================================================================== *)
(** * Facts about the production settings *)
(* ================================================================== *)

Module ProdFacts.

Import Prod.
Open Scope N_scope.

Lemma split_nonempty (sep : N) (v : text) : split sep v <> [].
Proof.
  destruct v as [|c v]; simpl; [discriminate|].
  destruct (c =? sep); [discriminate|].
  destruct (split sep v); discriminate.
Qed.

Lemma length_split (sep : N) (v : text) :
  List.length (split sep v) = S (count_occ N.eq_dec v sep).
Proof.
  induction v as [|c v IH]; [reflexivity|].
  simpl. destruct (N.eqb_spec c sep) as [E|E].
  - destruct (N.eq_dec c sep); [|contradiction]. simpl. rewrite IH. reflexivity.
  - destruct (N.eq_dec c sep); [contradiction|].
    pose proof (split_nonempty sep v).
    destruct (split sep v); [contradiction|]. exact IH.
Qed.

Lemma split_pieces (sep : N) (v : text) (p : text) :
  In p (split sep v) -> ~ In sep p.
Proof.
  revert p; induction v as [|c v IH]; intros p H.
  - destruct H as [<-|[]]. intros [].
  - simpl in H. destruct (N.eqb_spec c sep) as [E|E].
    + destruct H as [<-|H]; [intros []|auto].
    + destruct (split sep v) as [|q qs].
      * destruct H as [<-|[]]. intros [H|[]]. congruence.
      * destruct H as [<-|H].
        -- intros [H|H]; [congruence|]. apply (IH q); [left; reflexivity|assumption].
        -- apply IH. right; assumption.
Qed.

Lemma lstrip_In (s : text) (c : N) : In c (lstrip s) -> In c s.
Proof.
  induction s as [|d s IH]; simpl; [tauto|].
  destruct (isspace d); [intros H; right; auto|tauto].
Qed.

Lemma rstrip_In (s : text) (c : N) : In c (rstrip s) -> In c s.
Proof.
  revert c; induction s as [|d s IH]; intros c; simpl; [tauto|].
  destruct (rstrip s) as [|k kept].
  - destruct (isspace d); [intros []|]. intros [H|[]]. left; assumption.
  - intros [H|H]; [left; assumption|right; apply IH; assumption].
Qed.

Lemma lstrip_head (s : text) (c : N) :
  hd_error (lstrip s) = Some c -> isspace c = false.
Proof.
  induction s as [|d s IH]; simpl; [discriminate|].
  destruct (isspace d) eqn:E; [assumption|]. simpl. congruence.
Qed.

Lemma rstrip_head (s : text) (c : N) :
  hd_error (rstrip s) = Some c -> hd_error s = Some c.
Proof.
  destruct s as [|d s]; simpl; [discriminate|].
  destruct (rstrip s); [destruct (isspace d); [discriminate|]|]; simpl; congruence.
Qed.

Lemma hd_error_app {A} (l l' : list A) :
  l <> [] -> hd_error (l ++ l') = hd_error l.
Proof. destruct l; [congruence|reflexivity]. Qed.

Lemma rev_nonempty {A} (l : list A) : l <> [] -> rev l <> [].
Proof.
  destruct l as [|x l]; [congruence|]. intros _ H. simpl in H.
  apply app_eq_nil in H. destruct H as [_ H]. discriminate.
Qed.

Lemma rstrip_last (s : text) (c : N) :
  hd_error (rev (rstrip s)) = Some c -> isspace c = false.
Proof.
  induction s as [|d s IH]; simpl; [discriminate|].
  destruct (rstrip s) as [|k kept] eqn:E.
  - destruct (isspace d) eqn:Ed; simpl; [discriminate|congruence].
  - change (rev (d :: k :: kept)) with (rev (k :: kept) ++ [d])%list.
    rewrite hd_error_app by (apply rev_nonempty; discriminate). exact IH.
Qed.

Lemma lstrip_clean (s : text) :
  (forall c, hd_error s = Some c -> isspace c = false) -> lstrip s = s.
Proof.
  destruct s as [|d s]; [reflexivity|]. intros H. simpl.
  rewrite (H d eq_refl). reflexivity.
Qed.

Lemma rstrip_clean (s : text) :
  (forall c, hd_error (rev s) = Some c -> isspace c = false) -> rstrip s = s.
Proof.
  induction s as [|d s IH]; [reflexivity|]. intros H. simpl.
  destruct s as [|k s'].
  - simpl. rewrite (H d eq_refl). reflexivity.
  - rewrite IH.
    + reflexivity.
    + intros c Hc. apply H.
      change (rev (d :: k :: s')) with (rev (k :: s') ++ [d])%list.
      rewrite hd_error_app by (apply rev_nonempty; discriminate). exact Hc.
Qed.

Lemma strip_clean (o : text) : clean o -> strip o = o.
Proof.
  intros (_ & Hh & Hl). unfold strip.
  rewrite (lstrip_clean o Hh). apply rstrip_clean; assumption.
Qed.

Lemma split_no_separator (sep : N) (p : text) :
  ~ In sep p -> split sep p = [p].
Proof.
  induction p as [|c p IH]; [reflexivity|]. intros H. simpl.
  destruct (N.eqb_spec c sep) as [E|E]; [exfalso; apply H; left; assumption|].
  rewrite IH; [reflexivity|]. intros H'. apply H. right; assumption.
Qed.

Lemma split_app_separator (sep : N) (p v : text) :
  ~ In sep p -> split sep (p ++ sep :: v) = p :: split sep v.
Proof.
  induction p as [|c p IH]; intros H.
  - simpl. rewrite N.eqb_refl. reflexivity.
  - simpl. destruct (N.eqb_spec c sep) as [E|E];
      [exfalso; apply H; left; assumption|].
    rewrite IH; [reflexivity|]. intros H'. apply H. right; assumption.
Qed.

Lemma split_join (items : list text) :
  items <> [] -> Forall (fun o => ~ In comma o) items ->
  split comma (join_commas items) = items.
Proof.
  induction items as [|o items IH]; [congruence|]. intros _ H.
  inversion H as [|? ? Ho Hrest]; subst.
  destruct items as [|o' items].
  - simpl. apply split_no_separator; assumption.
  - change (join_commas (o :: o' :: items))
      with (o ++ comma :: join_commas (o' :: items))%list.
    rewrite split_app_separator by assumption.
    rewrite IH; [reflexivity|discriminate|assumption].
Qed.

Lemma split_trailing (sep : N) (v : text) :
  split sep (v ++ [sep]) = (split sep v ++ [[]])%list.
Proof.
  induction v as [|c v IH]; simpl.
  - rewrite N.eqb_refl. reflexivity.
  - rewrite IH. destruct (c =? sep); [reflexivity|].
    pose proof (split_nonempty sep v).
    destruct (split sep v); [contradiction|reflexivity].
Qed.

(** X15.  The cast yields one origin more than the value has commas.  So an
    empty value yields one origin, the empty one; and a comma at the end of
    the value adds an empty origin at the end of the list. *)
Theorem cast_origins_count (v : text) :
  List.length (cast_origins v) = S (count_occ N.eq_dec v comma)
  /\ cast_origins [] = [[]]
  /\ cast_origins (v ++ [comma]) = (cast_origins v ++ [[]])%list.
Proof.
  unfold cast_origins. split; [|split].
  - rewrite length_map. apply length_split.
  - reflexivity.
  - rewrite split_trailing, map_app. reflexivity.
Qed.

Lemma cast_pieces_clean (v : text) (o : text) :
  In o (cast_origins v) -> clean o.
Proof.
  unfold cast_origins. intros H. apply in_map_iff in H.
  destruct H as (p & <- & Hp). apply split_pieces in Hp.
  unfold clean, strip. split; [|split].
  - intros H. apply Hp. apply lstrip_In. apply rstrip_In. exact H.
  - intros c Hc. apply rstrip_head in Hc. apply lstrip_head in Hc. exact Hc.
  - intros c Hc. apply rstrip_last in Hc. exact Hc.
Qed.

(** X16.  No origin the cast yields holds a comma, or starts or ends with white
    space. *)
Theorem cast_origins_clean (v : text) (o : text) :
  In o (cast_origins v) -> clean o.
Proof. apply cast_pieces_clean. Qed.

Lemma cast_origins_clean_witness :
  clean [104; 116; 116; 112; 115; 58; 47; 47; 98; 46; 105; 111].
Proof.
  apply (cast_origins_clean two_origins). right; left. reflexivity.
Defined.

(** X17.  Origins that are already clean come back unchanged when joined with
    commas and cast; so casting what the cast produced, joined again, changes
    nothing. *)
Theorem cast_origins_join (items : list text) :
  items <> [] -> Forall clean items ->
  cast_origins (join_commas items) = items
  /\ forall v, cast_origins (join_commas (cast_origins v)) = cast_origins v.
Proof.
  assert (Hjoin : forall l, l <> [] -> Forall clean l ->
                            cast_origins (join_commas l) = l).
  { intros l Hne Hc. unfold cast_origins. rewrite split_join.
    - rewrite <- (map_id l) at 2. apply map_ext_in. intros o Ho.
      rewrite Forall_forall in Hc. apply strip_clean. auto.
    - assumption.
    - rewrite Forall_forall in *. intros o Ho. destruct (Hc o Ho). assumption. }
  intros Hne Hc. split; [apply Hjoin; assumption|].
  intros v. apply Hjoin.
  - unfold cast_origins. pose proof (split_nonempty comma v).
    destruct (split comma v); [contradiction|discriminate].
  - apply Forall_forall. intros o. apply cast_pieces_clean.
Qed.

Lemma cast_origins_join_witness :
  cast_origins (join_commas [[97; 46; 105; 111]; [98; 46; 105; 111]])
  = [[97; 46; 105; 111]; [98; 46; 105; 111]].
Proof.
  apply (cast_origins_join [[97; 46; 105; 111]; [98; 46; 105; 111]]).
  - discriminate.
  - repeat constructor; simpl;
      try (intros c [= <-]; reflexivity);
      intros H; repeat (destruct H as [H|H]; [discriminate|]); contradiction.
Defined.

End ProdFacts.
